(** * SkywarnPlus: the polling cycle, its change detector and its state store

    A shallow embedding of the core of SkywarnPlus
    (src/src/skywarnplus.py, alert_processor.py, state_manager.py,
    api_client.py, constants.py, data_types.py and main.py).

    Python values are modelled by the type [pyval]; a Python [dict] is an
    insertion-ordered association list; exceptions are explicit results
    ([outcome]); the objects a cycle mutates ([self.state], the state
    manager's cache and dirty flag, the state file, the calls made to the
    announcer and the notification service) are passed along explicitly
    in a record ([Sys]).

    Outside the program, and taken as parameters ([Env]): the HTTP
    responses (one per county and attempt), the order in which the
    concurrent requests complete, the date parser, the glob matcher, the
    announcer and the notification service, and the file system as
    [flush_state] meets it ([Disk]).  The state file is modelled by the
    JSON document it holds; [json.dump] accepts the values of
    [json_serialisable] and raises on the others.

    The feed is typed: the body of a response, once decoded, is the list
    of the [properties] objects of its features, and the members of such
    an object are strings.  A body with a null or non-string member, or
    with a feature that is not an object, is outside the model. *)

From Stdlib Require Import Ascii String ZArith Lia Permutation Sorted.
From stdpp Require Import base option list strings pretty gmap sets.

Set Warnings "-register-all".
Local Open Scope Z_scope.
Local Open Scope string_scope.

(** ** Exceptions and results *)

Inductive exn :=
| TypeError | KeyError | ValueError | AttributeError
| OSError | FileIOError
| Timeout | RequestException | HTTPError | JSONDecodeError
| OtherError.

Inductive outcome (A : Type) :=
| Returned (a : A)
| Raised (e : exn).
Arguments Returned {A} a.
Arguments Raised {A} e.

Definition obind {A B} (m : outcome A) (k : A -> outcome B) : outcome B :=
  match m with
  | Returned a => k a
  | Raised e => Raised e
  end.

Declare Scope outcome_scope.
Delimit Scope outcome_scope with out.
Notation "'let?' x ':=' m 'in' k" := (obind m (fun x => k))
  (at level 10, x pattern, m at level 100, k at level 200) : outcome_scope.
Local Open Scope outcome_scope.

Definition is_returned {A} (m : outcome A) : bool :=
  match m with Returned _ => true | Raised _ => false end.

(** [for x in l: acc = f(acc, x)], stopping at the first exception. *)
Fixpoint foldM {A B} (f : B -> A -> outcome B) (l : list A) (acc : B) : outcome B :=
  match l with
  | [] => Returned acc
  | x :: l' => obind (f acc x) (foldM f l')
  end.

(** [[f(x) for x in l]], stopping at the first exception. *)
Fixpoint mapM {A B} (f : A -> outcome B) (l : list A) : outcome (list B) :=
  match l with
  | [] => Returned []
  | x :: l' => obind (f x) (fun y => obind (mapM f l') (fun ys => Returned (y :: ys)))
  end.

(** ** Python dictionaries: insertion-ordered, one binding per key *)

Abbreviation pydict V := (list (string * V)) (only parsing).

Fixpoint dict_get {V} (k : string) (d : pydict V) : option V :=
  match d with
  | [] => None
  | (k', v) :: d' => if String.eqb k k' then Some v else dict_get k d'
  end.

(** [d[k] = v]: an existing key keeps its position, a new key goes last. *)
Fixpoint dict_set {V} (k : string) (v : V) (d : pydict V) : pydict V :=
  match d with
  | [] => [(k, v)]
  | (k', v') :: d' =>
      if String.eqb k k' then (k', v) :: d' else (k', v') :: dict_set k v d'
  end.

Definition dict_keys {V} (d : pydict V) : list string := map fst d.

Definition dict_mem {V} (k : string) (d : pydict V) : bool :=
  match dict_get k d with Some _ => true | None => false end.

(** ** data_types.py *)

Abbreviation CountyCode := string (only parsing).
Abbreviation AlertType := string (only parsing).

Record AlertData := {
  county_code : string;
  severity : Z;
  description : string;
  end_time_utc : string;
  event : string;
  headline : string;
  instruction : string
}.

Record AppConfig := {
  enabled : bool;
  max_alerts : Z;
  say_alert : bool;
  say_all_clear : bool;
  say_alerts_changed : bool;
  say_alert_all : bool
}.

(** ** Python values

    What [self.state] and the state file can hold: JSON data, Python sets
    (which [save_state] converts) and [AlertData] instances.  Numbers are
    integers. *)

Inductive pyval :=
| VNone
| VBool (b : bool)
| VInt (n : Z)
| VStr (s : string)
| VList (l : list pyval)
| VDict (d : list (string * pyval))
| VSet (l : list pyval)
| VAlert (a : AlertData).

Abbreviation StateData := (list (string * pyval)) (only parsing).

(** Python truth value. *)
Definition truthy (v : pyval) : bool :=
  match v with
  | VNone => false
  | VBool b => b
  | VInt n => negb (Z.eqb n 0)
  | VStr s => negb (String.eqb s "")
  | VList l => match l with [] => false | _ => true end
  | VDict d => match d with [] => false | _ => true end
  | VSet l => match l with [] => false | _ => true end
  | VAlert _ => true
  end.

(** Converting an integer to its decimal digits, or a digit string to an
    integer, raises ValueError beyond 4300 digits (the default limit of
    [sys.set_int_max_str_digits]). *)
Definition INT_MAX_STR_DIGITS : nat := 4300.

Definition int_repr_bound : Z := Eval vm_compute in 10 ^ Z.of_nat INT_MAX_STR_DIGITS.

(** [repr(n)] returns: [n] has at most 4300 digits. *)
Definition int_repr_ok (n : Z) : bool := Z.ltb (Z.abs n) int_repr_bound.

(** What [json.dump] accepts: it raises TypeError on a set and on an
    [AlertData] instance, and ValueError on an integer of more than 4300
    digits. *)
Fixpoint json_serialisable (v : pyval) : bool :=
  match v with
  | VNone | VBool _ | VStr _ => true
  | VInt n => int_repr_ok n
  | VList l => forallb json_serialisable l
  | VDict d => forallb (fun kv => json_serialisable (snd kv)) d
  | VSet _ => false
  | VAlert _ => false
  end.

(** A snapshot as [run] builds it: AlertType -> [AlertData] instances. *)
Abbreviation Snapshot := (list (string * list AlertData)) (only parsing).

Definition snapshot_val (s : Snapshot) : pyval :=
  VDict (map (fun kv => (fst kv, VList (map VAlert (snd kv)))) s).

(** ** constants.py *)

Inductive AlertSeverity := UNKNOWN | MINOR | MODERATE | SEVERE | EXTREME.

Definition value (s : AlertSeverity) : Z :=
  match s with
  | UNKNOWN => 0 | MINOR => 1 | MODERATE => 2 | SEVERE => 3 | EXTREME => 4
  end.

Definition API_SEVERITY_MAPPING : pydict AlertSeverity :=
  [("Extreme", EXTREME); ("Severe", SEVERE); ("Moderate", MODERATE);
   ("Minor", MINOR); ("Unknown", UNKNOWN)].

Definition WORD_SEVERITY_MAPPING : pydict AlertSeverity :=
  [("Warning", EXTREME); ("Watch", SEVERE); ("Advisory", MODERATE);
   ("Statement", MINOR)].

(** ** alert_processor.py: severity resolution *)

(** Python's [word in event] on strings. *)
Fixpoint str_contains (word s : string) : bool :=
  String.prefix word s ||
  match s with
  | EmptyString => false
  | String _ s' => str_contains word s'
  end.

(** The [properties] object of a feed entry; its members are strings
    (a member that is missing is absent from the map). *)
Abbreviation Properties := (list (string * string)) (only parsing).

Fixpoint first_word (words : pydict AlertSeverity) (ev : string) : option AlertSeverity :=
  match words with
  | [] => None
  | (word, sev) :: rest =>
      if str_contains word ev then Some sev else first_word rest ev
  end.

Definition _determine_severity (properties : Properties) : Z :=
  let api_severity := dict_get "severity" properties in
  match api_severity ≫= (fun s => dict_get s API_SEVERITY_MAPPING) with
  | Some sev => value sev
  | None =>
      let ev := default "" (dict_get "event" properties) in
      match first_word WORD_SEVERITY_MAPPING ev with
      | Some sev => value sev
      | None => 0
      end
  end.

(** ** alert_processor.py: parsing, filtering, sorting *)

(** [parse_alert_data]: one record per feature.  [dateutil_parse] stands
    for [parser.parse(...)] followed by [strftime]; [None] is a parse
    failure, which leaves the end time empty.  On the typed feed no
    feature makes the loop raise, so the [try] around it has nothing to
    catch; on a feature outside the model (a null event, say) it ends
    the loop and the records built so far are returned. *)
Definition parse_feature (dateutil_parse : string -> option string)
    (county : CountyCode) (properties : Properties) : AlertData :=
  let end_time_utc :=
    match dict_get "ends" properties with
    | Some end_time_str =>
        if String.eqb end_time_str "" then ""
        else default "" (dateutil_parse end_time_str)
    | None => ""
    end in
  {| county_code := county;
     severity := _determine_severity properties;
     description := default "" (dict_get "description" properties);
     end_time_utc := end_time_utc;
     event := default "Unknown Event" (dict_get "event" properties);
     headline := default "" (dict_get "headline" properties);
     instruction := default "" (dict_get "instruction" properties) |}.

Definition parse_alert_data (dateutil_parse : string -> option string)
    (features : list Properties) (county : CountyCode) : list AlertData :=
  map (parse_feature dateutil_parse county) features.

(** [fnmatch] is Python's glob matcher. *)
Definition filter_blocked_alerts (fnmatch : string -> string -> bool)
    (alerts : Snapshot) (blocked_events : list string) : Snapshot :=
  List.filter (fun kv => negb (existsb (fnmatch (fst kv)) blocked_events)) alerts.

(** Python's [max] over a generator of integers. *)
Definition py_max (l : list Z) : outcome Z :=
  match l with
  | [] => Raised ValueError
  | x :: l' => Returned (fold_left Z.max l' x)
  end.

(** [list.sort(key=..., reverse=True)]: a stable sort, largest key first;
    elements with equal keys keep their order. *)
Fixpoint insert_desc {A} (key : A -> Z) (x : A) (l : list A) : list A :=
  match l with
  | [] => [x]
  | y :: l' => if Z.ltb (key x) (key y) then y :: insert_desc key x l' else x :: y :: l'
  end.

Fixpoint sort_reverse {A} (key : A -> Z) (l : list A) : list A :=
  match l with
  | [] => []
  | x :: l' => insert_desc key x (sort_reverse key l')
  end.

Definition sort_alerts_by_severity (alerts : Snapshot) : outcome Snapshot :=
  let? alert_severities :=
    mapM (fun kv : AlertType * list AlertData =>
            let? max_severity := py_max (map severity (snd kv)) in
            Returned (fst kv, max_severity)) alerts in
  let alert_severities := sort_reverse snd alert_severities in
  foldM (fun (sorted_alerts : Snapshot) (p : AlertType * Z) =>
           match dict_get (fst p) alerts with
           | Some alert_list => Returned (dict_set (fst p) alert_list sorted_alerts)
           | None => Raised KeyError
           end) alert_severities [].

(** ** Dynamic operations on Python values *)

(** [v[k]] for a string [k]. *)
Definition py_getitem (v : pyval) (k : string) : outcome pyval :=
  match v with
  | VDict d =>
      match dict_get k d with
      | Some x => Returned x
      | None => Raised KeyError
      end
  | _ => Raised TypeError
  end.

Fixpoint chars (s : string) : list pyval :=
  match s with
  | EmptyString => []
  | String c s' => VStr (String c EmptyString) :: chars s'
  end.

(** [for x in v]. *)
Definition py_iter (v : pyval) : outcome (list pyval) :=
  match v with
  | VList l => Returned l
  | VSet l => Returned l
  | VDict d => Returned (map (fun kv => VStr (fst kv)) d)
  | VStr s => Returned (chars s)
  | _ => Raised TypeError
  end.

Definition is_str (k : string) (v : pyval) : bool :=
  match v with VStr s => String.eqb s k | _ => false end.

(** [k in v] for a string [k]. *)
Definition py_contains (v : pyval) (k : string) : outcome bool :=
  match v with
  | VDict d => Returned (dict_mem k d)
  | VList l => Returned (existsb (is_str k) l)
  | VSet l => Returned (existsb (is_str k) l)
  | VStr s => Returned (str_contains k s)
  | _ => Raised TypeError
  end.

(** [v.get(k, dflt)]. *)
Definition py_get (v : pyval) (k : string) (dflt : pyval) : outcome pyval :=
  match v with
  | VDict d => Returned (default dflt (dict_get k d))
  | _ => Raised AttributeError
  end.

(** [v.values()]. *)
Definition py_values (v : pyval) : outcome (list pyval) :=
  match v with
  | VDict d => Returned (map snd d)
  | _ => Raised AttributeError
  end.

(** The elements a set can hold among the values of the model.  [True]
    and [False] are equal to 1 and 0 and hash alike, so a boolean is the
    integer it equals. *)
Inductive hashable :=
| HNone
| HInt (n : Z)
| HStr (s : string).

#[global] Instance hashable_eq_dec : EqDecision hashable := ltac:(solve_decision).

Definition hashable_encode (h : hashable) : unit + (Z + string) :=
  match h with
  | HNone => inl tt
  | HInt n => inr (inl n)
  | HStr s => inr (inr s)
  end.

Definition hashable_decode (x : unit + (Z + string)) : hashable :=
  match x with
  | inl _ => HNone
  | inr (inl n) => HInt n
  | inr (inr s) => HStr s
  end.

#[global] Instance hashable_countable : Countable hashable :=
  inj_countable' hashable_encode hashable_decode
    (fun h => match h with
              | HNone => eq_refl
              | HInt _ => eq_refl
              | HStr _ => eq_refl
              end).

(** Adding [v] to a set: lists, dictionaries, sets and [AlertData]
    instances are unhashable. *)
Definition py_hash (v : pyval) : outcome hashable :=
  match v with
  | VNone => Returned HNone
  | VBool b => Returned (HInt (if b then 1 else 0))
  | VInt n => Returned (HInt n)
  | VStr s => Returned (HStr s)
  | _ => Raised TypeError
  end.

(** [{info["county_code"] for info in infos}], element by element. *)
Definition county_codes_of (infos : pyval) : outcome (list hashable) :=
  let? l := py_iter infos in
  mapM (fun info => let? c := py_getitem info "county_code" in py_hash c) l.

(** ** alert_processor.py: the change detector *)

Definition quote_char : Ascii.ascii := Ascii.ascii_of_nat 34.

(** [clean_pattern.sub] with the empty replacement: the characters left
    brace, right brace and double quote are removed. *)
Fixpoint clean (code : string) : string :=
  match code with
  | EmptyString => EmptyString
  | String c rest =>
      if (Ascii.eqb c "{"%char || Ascii.eqb c "}"%char || Ascii.eqb c quote_char)%bool
      then clean rest
      else String c (clean rest)
  end.

(** [clean_pattern.sub] accepts strings only. *)
Definition clean_code (code : hashable) : outcome string :=
  match code with
  | HStr s => Returned (clean s)
  | _ => Raised TypeError
  end.

(** [{clean_pattern.sub("", code) for code in codes}] *)
Definition clean_codes (codes : gset hashable) : outcome (gset string) :=
  let? l := mapM clean_code (elements codes) in
  Returned (list_to_set l).

Record ChangeInfo := {
  ci_old : gset hashable;
  ci_added : gset string;
  ci_removed : gset string
}.

Record Changes := {
  changes_detected : pydict ChangeInfo;
  alerts_with_changed_counties : pydict pyval
}.

Definition set_truthy (X : gset string) : bool := negb (bool_decide (X = ∅)).

Definition detect_step (old_alerts : pyval) (new_alerts : pydict pyval)
    (acc : Changes) (item : string * pyval) : outcome Changes :=
  let alert_name := fst item in
  let alert_info := snd item in
  let? present := py_contains old_alerts alert_name in
  if negb present then Returned acc
  else
    let? old_alert_info := py_get old_alerts alert_name (VList []) in
    let? old_codes := county_codes_of old_alert_info in
    let? new_codes := county_codes_of alert_info in
    let old_county_codes : gset hashable := list_to_set old_codes in
    let new_county_codes : gset hashable := list_to_set new_codes in
    let added_counties := new_county_codes ∖ old_county_codes in
    let removed_counties := old_county_codes ∖ new_county_codes in
    let? added_counties := clean_codes added_counties in
    let? removed_counties := clean_codes removed_counties in
    if (set_truthy added_counties || set_truthy removed_counties)%bool then
      match dict_get alert_name new_alerts with
      | Some v =>
          Returned
            {| changes_detected :=
                 dict_set alert_name
                   {| ci_old := old_county_codes;
                      ci_added := added_counties;
                      ci_removed := removed_counties |}
                   (changes_detected acc);
               alerts_with_changed_counties :=
                 dict_set alert_name v (alerts_with_changed_counties acc) |}
      | None => Raised KeyError
      end
    else Returned acc.

Definition detect_county_changes (old_alerts : pyval) (new_alerts : pydict pyval)
    : outcome Changes :=
  foldM (detect_step old_alerts new_alerts) new_alerts
    {| changes_detected := []; alerts_with_changed_counties := [] |}.

(** ** state_manager.py *)

(** The state file: absent, unreadable as JSON, or a JSON object. *)
Inductive file_content :=
| Missing
| Corrupt
| Doc (d : pydict pyval).

Record StateManager := {
  _state_cache : pydict pyval;
  _state_dirty : bool
}.

Definition empty_state : StateData :=
  [("last_alerts", VDict []); ("last_sayalert", VDict []);
   ("last_tailmessage", VDict []); ("last_allclear", VDict []);
   ("last_alert_script", VDict [])].

(** [load_state]: the state and the manager with its cache refreshed. *)
Definition load_state (data_file : file_content) : outcome (StateData * StateManager) :=
  match data_file with
  | Doc state => Returned (state, {| _state_cache := state; _state_dirty := false |})
  | Missing =>
      Returned (empty_state, {| _state_cache := empty_state; _state_dirty := false |})
  | Corrupt => Raised FileIOError
  end.

Definition set_to_list (v : pyval) : pyval :=
  match v with VSet l => VList l | _ => v end.

Definition state_for_json (state : StateData) : pydict pyval :=
  map (fun kv : string * pyval =>
         (fst kv,
          match snd kv with
          | VSet l => VList l
          | VDict d => VDict (map (fun kv' : string * pyval => (fst kv', set_to_list (snd kv'))) d)
          | v => v
          end)) state.

Definition save_state (state : StateData) (sm : StateManager) : StateManager :=
  {| _state_cache := state_for_json state; _state_dirty := true |}.

(** The file system as [flush_state] meets it.  [open_temp]: opening the
    temporary file for writing succeeds; [write_replace]: writing it,
    closing it and renaming it over the state file succeed;
    [temp_exists]: the temporary path exists although it could not be
    opened; [unlink_temp]: the result of removing the temporary file. *)
Record Disk := {
  open_temp : bool;
  write_replace : bool;
  temp_exists : bool;
  unlink_temp : outcome unit
}.

Definition writable (disk : Disk) : bool := (open_temp disk && write_replace disk)%bool.

(** The [except] branch of [flush_state]: the temporary file is removed
    when it exists, which can itself raise, and FileIOError is raised. *)
Definition flush_failed (temp : bool) (disk : Disk) : outcome unit :=
  if temp then
    match unlink_temp disk with
    | Returned _ => Raised FileIOError
    | Raised e => Raised e
    end
  else Raised FileIOError.

(** [flush_state]: the cache is written to a temporary file, which is
    renamed over the state file; [json.dump] raises on a value that is
    not JSON.  Once the temporary file is open it exists.  On failure
    the state file keeps its content and the cache stays dirty. *)
Definition flush_state (disk : Disk) (sm : StateManager) (data_file : file_content)
    : outcome unit * StateManager * file_content :=
  if negb (_state_dirty sm) then (Returned tt, sm, data_file)
  else if negb (open_temp disk) then (flush_failed (temp_exists disk) disk, sm, data_file)
  else if (json_serialisable (VDict (_state_cache sm)) && write_replace disk)%bool then
    (Returned tt,
     {| _state_cache := _state_cache sm; _state_dirty := false |},
     Doc (_state_cache sm))
  else (flush_failed true disk, sm, data_file).

(** ** api_client.py *)

(** The decoded body of a response: [Some features] when it is an object
    with a [features] member, [None] otherwise; decoding itself can raise. *)
Record Response := {
  status_code : Z;
  json : outcome (option (list Properties))
}.

Record NWSAPIClient := {
  timeout : Z;
  max_workers : Z
}.

Definition default_client : NWSAPIClient := {| timeout := 10; max_workers := 10 |}.

Definition raise_for_status (response : Response) : outcome unit :=
  if (Z.leb 400 (status_code response) && Z.ltb (status_code response) 600)%bool
  then Raised HTTPError
  else Returned tt.

(** [session_get county timeout attempt] is the result of the
    [attempt]-th [session.get] for that county.  [request_alerts] is the
    body of the [try] of [fetch_county_alerts]. *)
Definition request_alerts (client : NWSAPIClient)
    (session_get : CountyCode -> Z -> nat -> outcome Response)
    (county : CountyCode) : outcome (option (list Properties)) :=
  let? response := session_get county (timeout client) 0%nat in
  let? _ := raise_for_status response in
  let? response :=
    if Z.eqb (status_code response) 429 then
      let? response := session_get county (timeout client) 1%nat in
      let? _ := raise_for_status response in
      Returned response
    else Returned response in
  json response.

(** Every exception is logged and turned into an absent payload. *)
Definition fetch_county_alerts (client : NWSAPIClient)
    (session_get : CountyCode -> Z -> nat -> outcome Response)
    (county : CountyCode) : CountyCode * option (list Properties) :=
  match request_alerts client session_get county with
  | Returned (Some features) => (county, Some features)
  | Returned None => (county, None)
  | Raised _ => (county, None)
  end.

(** [alerts_data[county_code] = data] for the request at position [i]. *)
Definition store_result (futures : list (CountyCode * option (list Properties)))
    (alerts_data : pydict (option (list Properties))) (i : nat)
    : pydict (option (list Properties)) :=
  match futures !! i with
  | Some (county, data) => dict_set county data alerts_data
  | None => alerts_data
  end.

(** [completion_order] lists the positions of the submitted requests in
    the order in which [as_completed] yields them. *)
Definition fetch_alerts_for_counties (client : NWSAPIClient)
    (session_get : CountyCode -> Z -> nat -> outcome Response)
    (completion_order : list nat) (county_codes : list CountyCode)
    : outcome (pydict (option (list Properties))) :=
  if Z.leb (Z.min (Z.of_nat (length county_codes)) (max_workers client)) 0
  then Raised ValueError
  else
    let futures := map (fetch_county_alerts client session_get) county_codes in
    Returned (fold_left (store_result futures) completion_order []).

(** ** skywarnplus.py *)

(** The collaborators a cycle calls; each call may raise. *)
Record Collaborators := {
  alert_announcer_say_alerts : Snapshot -> Z -> outcome bool;
  alert_announcer_say_all_clear : outcome bool;
  notification_service_send_alert_notification : AlertType -> list CountyCode -> Z -> outcome bool;
  notification_service_send_all_clear_notification : list pyval -> outcome bool
}.

(** The announcer and the notification service of the repository run
    their audio and HTTP work inside [try: ... except Exception: return
    False] (alert_announcer.py, notification_service.py); [Devices] is
    that inner work. *)
Record Devices := {
  alert_audio : Snapshot -> Z -> outcome bool;
  all_clear_audio : outcome bool;
  pushover : option (string -> list pyval -> Z -> outcome bool)
}.

Definition caught (r : outcome bool) : bool :=
  match r with Returned b => b | Raised _ => false end.

Definition all_strings (l : list pyval) : bool :=
  forallb (fun v => match v with VStr _ => true | _ => false end) l.

Definition repo_collaborators (d : Devices) : Collaborators :=
  {| alert_announcer_say_alerts := fun alerts max => Returned (caught (alert_audio d alerts max));
     alert_announcer_say_all_clear := Returned (caught (all_clear_audio d));
     notification_service_send_alert_notification := fun alert_type counties sev =>
       match pushover d with
       | Some send => Returned (caught (send alert_type (map VStr counties) sev))
       | None => Returned true
       end;
     notification_service_send_all_clear_notification := fun counties =>
       if all_strings counties then
         match pushover d with
         | Some send => Returned (caught (send "All Clear" counties 0))
         | None => Returned true
         end
       else Raised TypeError |}.

(** Everything outside the program that a cycle depends on. *)
Record Env := {
  session_get : CountyCode -> Z -> nat -> outcome Response;
  completion_order : list nat;
  dateutil_parse : string -> option string;
  fnmatch : string -> string -> bool;
  collaborators : Collaborators;
  disk : Disk
}.

(** The configuration read at start-up. *)
Record Config := {
  app_config : AppConfig;
  county_configs : list CountyCode;
  blocked_events : list string;
  api_client : NWSAPIClient
}.

(** The calls made to the collaborators, oldest first. *)
Inductive Call :=
| SayAlerts (alerts : Snapshot) (max : Z)
| SayAllClear
| AlertNotification (alert_type : AlertType) (counties : list CountyCode) (sev : Z)
| AllClearNotification (counties : list pyval).

(** What a cycle mutates: [self.state], the state manager, the state
    file, and the calls made so far. *)
Record Sys := {
  state : StateData;
  state_manager : StateManager;
  data_file : file_content;
  calls : list Call
}.

Definition set_state (k : string) (v : pyval) (s : Sys) : Sys :=
  {| state := dict_set k v (state s);
     state_manager := state_manager s;
     data_file := data_file s;
     calls := calls s |}.

Definition call (c : Call) (s : Sys) : Sys :=
  {| state := state s;
     state_manager := state_manager s;
     data_file := data_file s;
     calls := (calls s ++ [c])%list |}.

(** [d.get(k)] *)
Definition state_get (k : string) (st : StateData) : pyval :=
  default VNone (dict_get k st).

Definition snapshot_items (s : Snapshot) : pydict pyval :=
  map (fun kv => (fst kv, VList (map VAlert (snd kv)))) s.

Definition is_empty {A} (l : list A) : bool :=
  match l with [] => true | _ => false end.

(** The notification loop of [_handle_active_alerts]. *)
Fixpoint notify_alerts (c : Collaborators) (alerts : Snapshot) (s : Sys)
    : outcome unit * Sys :=
  match alerts with
  | [] => (Returned tt, s)
  | (alert_type, alert_list) :: rest =>
      let counties := map county_code alert_list in
      match py_max (map severity alert_list) with
      | Raised e => (Raised e, s)
      | Returned sev =>
          let s := call (AlertNotification alert_type counties sev) s in
          match notification_service_send_alert_notification c alert_type counties sev with
          | Raised e => (Raised e, s)
          | Returned _ => notify_alerts c rest s
          end
      end
  end.

(** The body of the [try] of [_handle_active_alerts]. *)
Definition active_alerts_body (c : Collaborators) (cfg : AppConfig)
    (alerts : Snapshot) (changes : Changes) (s : Sys) : outcome unit * Sys :=
  let announce :=
    (say_alert cfg &&
     (negb (is_empty (changes_detected changes))
      || negb (truthy (state_get "last_sayalert" (state s)))))%bool in
  if announce then
    let s := call (SayAlerts alerts (max_alerts cfg)) s in
    match alert_announcer_say_alerts c alerts (max_alerts cfg) with
    | Raised e => (Raised e, s)
    | Returned _ =>
        notify_alerts c alerts (set_state "last_sayalert" (snapshot_val alerts) s)
    end
  else notify_alerts c alerts s.

(** [except Exception as e: log] *)
Definition _handle_active_alerts (c : Collaborators) (cfg : AppConfig)
    (alerts : Snapshot) (changes : Changes) (s : Sys) : Sys :=
  snd (active_alerts_body c cfg alerts changes s).

(** The counties of the previous snapshot, read by subscript. *)
Definition old_counties (old_alerts : pyval) : outcome (list pyval) :=
  let? lists := py_values old_alerts in
  let? per_list :=
    mapM (fun alert_list =>
            let? l := py_iter alert_list in
            mapM (fun alert => py_getitem alert "county_code") l) lists in
  Returned (concat per_list).

(** The body of the [try] of [_handle_all_clear]. *)
Definition all_clear_body (c : Collaborators) (cfg : AppConfig)
    (old_alerts : pyval) (s : Sys) : outcome unit * Sys :=
  if (truthy old_alerts && say_all_clear cfg)%bool then
    let s := call SayAllClear s in
    match alert_announcer_say_all_clear c with
    | Raised e => (Raised e, s)
    | Returned _ =>
        match old_counties old_alerts with
        | Raised e => (Raised e, s)
        | Returned counties =>
            let s := call (AllClearNotification counties) s in
            match notification_service_send_all_clear_notification c counties with
            | Raised e => (Raised e, s)
            | Returned _ => (Returned tt, set_state "last_allclear" (VDict []) s)
            end
        end
    end
  else (Returned tt, s).

Definition _handle_all_clear (c : Collaborators) (cfg : AppConfig)
    (old_alerts : pyval) (s : Sys) : Sys :=
  snd (all_clear_body c cfg old_alerts s).

(** [cleanup]: the flush, then the audio cache and the HTTP session are
    released (no effect on [Sys]); whatever is raised is logged. *)
Definition cleanup (env : Env) (s : Sys) : Sys :=
  let '(_, sm, file) := flush_state (disk env) (state_manager s) (data_file s) in
  {| state := state s; state_manager := sm; data_file := file; calls := calls s |}.

(** The grouping loop of [run]. *)
Definition add_alert (all_alerts : Snapshot) (alert : AlertData) : Snapshot :=
  match dict_get (event alert) all_alerts with
  | None => dict_set (event alert) [alert] all_alerts
  | Some l => dict_set (event alert) (l ++ [alert])%list all_alerts
  end.

Definition collect_alerts (dateutil_parse : string -> option string)
    (alerts_data : pydict (option (list Properties))) : Snapshot :=
  fold_left
    (fun all_alerts item =>
       match snd item with
       | Some features =>
           fold_left add_alert (parse_alert_data dateutil_parse features (fst item)) all_alerts
       | None => all_alerts
       end)
    alerts_data [].

(** The snapshot of the cycle: fetch, parse, filter, sort. *)
Definition current_snapshot (env : Env) (cfg : Config) : outcome Snapshot :=
  let? alerts_data :=
    fetch_alerts_for_counties (api_client cfg) (session_get env)
      (completion_order env) (county_configs cfg) in
  let all_alerts := collect_alerts (dateutil_parse env) alerts_data in
  let filtered_alerts := filter_blocked_alerts (fnmatch env) all_alerts (blocked_events cfg) in
  sort_alerts_by_severity filtered_alerts.

(** The body of the [try] of [run]. *)
Definition run_body (env : Env) (cfg : Config) (s : Sys) : outcome unit * Sys :=
  if is_empty (county_configs cfg) then (Returned tt, s)
  else
    match current_snapshot env cfg with
    | Raised e => (Raised e, s)
    | Returned sorted_alerts =>
        let old_alerts := default (VDict []) (dict_get "last_alerts" (state s)) in
        match detect_county_changes old_alerts (snapshot_items sorted_alerts) with
        | Raised e => (Raised e, s)
        | Returned changes =>
            let s :=
              if negb (is_empty sorted_alerts)
              then _handle_active_alerts (collaborators env) (app_config cfg)
                     sorted_alerts changes s
              else _handle_all_clear (collaborators env) (app_config cfg) old_alerts s in
            let s := set_state "last_alerts" (snapshot_val sorted_alerts) s in
            (Returned tt,
             {| state := state s;
                state_manager := save_state (state s) (state_manager s);
                data_file := data_file s;
                calls := calls s |})
        end
    end.

(** [run]: a disabled application returns at once; otherwise the body
    runs, an exception is logged and raised again, and [cleanup] runs in
    every case. *)
Definition run (env : Env) (cfg : Config) (s : Sys) : outcome unit * Sys :=
  if negb (enabled (app_config cfg)) then (Returned tt, s)
  else
    let '(r, s) := run_body env cfg s in
    (r, cleanup env s).

(** ** main.py: one polling cycle

    [with SkywarnPlus() as app: app.run()]: the state is loaded, [run] is
    called, and leaving the [with] block calls [cleanup] once more. *)
Definition main (env : Env) (cfg : Config) (file : file_content)
    : outcome unit * list Call * file_content :=
  match load_state file with
  | Raised e => (Raised e, [], file)
  | Returned (st, sm) =>
      let s := {| state := st; state_manager := sm; data_file := file; calls := [] |} in
      let '(r, s) := run env cfg s in
      let s := cleanup env s in
      (r, calls s, data_file s)
  end.

(** The decisions of a cycle, read off its calls. *)
Definition is_say_alerts (c : Call) : bool :=
  match c with SayAlerts _ _ => true | _ => false end.

Definition is_say_all_clear (c : Call) : bool :=
  match c with SayAllClear => true | _ => false end.

Definition alert_emitted (cs : list Call) : bool := existsb is_say_alerts cs.
Definition all_clear_emitted (cs : list Call) : bool := existsb is_say_all_clear cs.

(** ** Vocabulary of the statements *)

(** The order of a list sorted with the largest key first. *)
Definition desc {A} (key : A -> Z) (a b : A) : Prop := key b <= key a.

Definition occurs_in (word s : string) : Prop :=
  exists a b : string, s = a ++ word ++ b.

Definition max_severity (alert_list : list AlertData) : Z :=
  match map severity alert_list with
  | [] => 0
  | x :: l => fold_left Z.max l x
  end.

(** The county code of a record held as a dictionary. *)
Definition record_county (r : pyval) : option string :=
  match r with
  | VDict d =>
      match dict_get "county_code" d with
      | Some (VStr c) => Some c
      | _ => None
      end
  | _ => None
  end.

(** A list of records, each a dictionary with a string [county_code]. *)
Definition is_record_list (v : pyval) : bool :=
  match v with
  | VList l => forallb (fun r => bool_decide (is_Some (record_county r))) l
  | _ => false
  end.

Definition is_dict_snapshot (d : pydict pyval) : bool :=
  forallb (fun kv => is_record_list (snd kv)) d.

(** The set of counties contributing to an alert type. *)
Definition counties (v : pyval) : gset string :=
  match v with
  | VList l => list_to_set (omap record_county l)
  | _ => ∅
  end.

(** What the detector records for an alert type of the new snapshot. *)
Definition change_entry (old_alerts : pydict pyval) (name : string) (info : pyval)
    : option ChangeInfo :=
  match dict_get name old_alerts with
  | None => None
  | Some old_info =>
      let added : gset string := set_map clean (counties info ∖ counties old_info) in
      let removed : gset string := set_map clean (counties old_info ∖ counties info) in
      if (set_truthy added || set_truthy removed)%bool
      then Some {| ci_old := set_map HStr (counties old_info);
                   ci_added := added; ci_removed := removed |}
      else None
  end.

(** What the grouping loop of [run] builds: a dictionary whose record
    lists are not empty. *)
Definition well_grouped (d : list (string * list AlertData)) : Prop :=
  NoDup (dict_keys d) /\ Forall (fun kv => snd kv <> []) d.

(** ** Concrete inputs *)

Definition tornado_warning : list (string * string) :=
  [("event", "Tornado Warning"); ("severity", "Extreme");
   ("description", "Take shelter now")].

Definition tornado_record : AlertData :=
  {| county_code := "A"; severity := 4; description := "Take shelter now";
     end_time_utc := ""; event := "Tornado Warning"; headline := "";
     instruction := "" |}.

Definition tornado_snapshot : list (string * list AlertData) :=
  [("Tornado Warning", [tornado_record])].

Definition ok_response (features : list (list (string * string))) : Response :=
  {| status_code := 200; json := Returned (Some features) |}.

(** Zone A reports a tornado warning, every other zone reports nothing. *)
Definition tornado_feed (county : string) (t : Z) (attempt : nat) : outcome Response :=
  if String.eqb county "A" then Returned (ok_response [tornado_warning])
  else Returned (ok_response []).

Definition empty_feed (county : string) (t : Z) (attempt : nat) : outcome Response :=
  Returned (ok_response []).

Definition working_devices : Devices :=
  {| alert_audio := fun _ _ => Returned true;
     all_clear_audio := Returned true;
     pushover := None |}.

(** Collaborators that fail on every call. *)
Definition failing_collaborators : Collaborators :=
  {| alert_announcer_say_alerts := fun _ _ => Raised OtherError;
     alert_announcer_say_all_clear := Raised OtherError;
     notification_service_send_alert_notification := fun _ _ _ => Raised OtherError;
     notification_service_send_all_clear_notification := fun _ => Raised OtherError |}.

(** A disk on which every operation succeeds, and one on which the
    temporary file cannot be opened. *)
Definition writable_disk : Disk :=
  {| open_temp := true; write_replace := true; temp_exists := false;
     unlink_temp := Returned tt |}.

Definition readonly_disk : Disk :=
  {| open_temp := false; write_replace := false; temp_exists := false;
     unlink_temp := Returned tt |}.

Definition make_env (feed : string -> Z -> nat -> outcome Response)
    (c : Collaborators) (w : Disk) : Env :=
  {| session_get := feed;
     completion_order := [0%nat; 1%nat];
     dateutil_parse := fun _ => None;
     fnmatch := fun _ _ => false;
     collaborators := c;
     disk := w |}.

Definition tornado_env : Env :=
  make_env tornado_feed (repo_collaborators working_devices) writable_disk.
Definition clear_env : Env :=
  make_env empty_feed (repo_collaborators working_devices) writable_disk.
Definition readonly_env : Env :=
  make_env empty_feed (repo_collaborators working_devices) readonly_disk.
Definition failing_env : Env := make_env tornado_feed failing_collaborators writable_disk.

(** Zones A and B both report the tornado warning. *)
Definition tornado_both_feed (county : string) (t : Z) (attempt : nat) : outcome Response :=
  Returned (ok_response [tornado_warning]).

Definition tornado_both_env : Env :=
  make_env tornado_both_feed (repo_collaborators working_devices) writable_disk.

Definition tornado_both_snapshot : list (string * list AlertData) :=
  [("Tornado Warning",
    [tornado_record;
     {| county_code := "B"; severity := 4; description := "Take shelter now";
        end_time_utc := ""; event := "Tornado Warning"; headline := "";
        instruction := "" |}])].



Definition two_zones : Config :=
  {| app_config :=
       {| enabled := true; max_alerts := 99; say_alert := true;
          say_all_clear := true; say_alerts_changed := true; say_alert_all := false |};
     county_configs := ["A"; "B"];
     blocked_events := [];
     api_client := default_client |}.

(** A record as the state file holds it. *)
Definition stored_record (county : string) : pyval :=
  VDict [("county_code", VStr county); ("severity", VInt 3)].

Definition flood_watch_stored : pyval :=
  VDict [("Flood Watch", VList [stored_record "A"])].

Definition tornado_stored : pyval :=
  VDict [("Tornado Warning", VList [stored_record "A"])].

(** The state after a cycle that announced a flood watch for zone A. *)
Definition flood_watch_state : list (string * pyval) :=
  [("last_alerts", flood_watch_stored); ("last_sayalert", flood_watch_stored);
   ("last_tailmessage", VDict []); ("last_allclear", VDict []);
   ("last_alert_script", VDict [])].

(** The state after a cycle that announced a tornado warning for zone A. *)
Definition tornado_state : list (string * pyval) :=
  [("last_alerts", tornado_stored); ("last_sayalert", tornado_stored);
   ("last_tailmessage", VDict []); ("last_allclear", VDict []);
   ("last_alert_script", VDict [])].

Definition fresh (st : list (string * pyval)) (file : file_content) : Sys :=
  {| state := st;
     state_manager := {| _state_cache := st; _state_dirty := false |};
     data_file := file;
     calls := [] |}.

Definition no_changes : Changes :=
  {| changes_detected := []; alerts_with_changed_counties := [] |}.

Definition three_types : list (string * list AlertData) :=
  [("Flood Advisory", [ {| county_code := "A"; severity := 2; description := "";
                           end_time_utc := ""; event := "Flood Advisory";
                           headline := ""; instruction := "" |} ]);
   ("Tornado Warning", [tornado_record]);
   ("Wind Advisory", [ {| county_code := "B"; severity := 2; description := "";
                          end_time_utc := ""; event := "Wind Advisory";
                          headline := ""; instruction := "" |} ])].

Definition previous_example : list (string * pyval) :=
  [("Flood Watch", VList [stored_record "A"]);
   ("Tornado Warning", VList [stored_record "A"])].

Definition current_example : list (string * pyval) :=
  [("Flood Watch", VList [stored_record "A"; stored_record "B"]);
   ("Wind Advisory", VList [stored_record "A"])].

(** ** Vocabulary of the further properties *)

(** [alert] is the record parsed from a feature of a zone whose fetch
    returned a payload. *)
Definition from_feed (dateutil_parse : string -> option string)
    (alerts_data : list (string * option (list (list (string * string)))))
    (alert : AlertData) : Prop :=
  exists county features properties,
    (county, Some features) ∈ alerts_data
    /\ properties ∈ features
    /\ alert = parse_feature dateutil_parse county properties.

(** The announcements among the calls of a cycle. *)
Definition decisions (cs : list Call) : list Call :=
  List.filter (fun c => (is_say_alerts c || is_say_all_clear c)%bool) cs.

(** The announcements [run] makes from a state [st], read off its
    branches. *)
Definition cycle_decisions (env : Env) (cfg : Config) (st : list (string * pyval))
    : list Call :=
  if (enabled (app_config cfg) && negb (is_empty (county_configs cfg)))%bool then
    match current_snapshot env cfg with
    | Returned snapshot =>
        let old_alerts := default (VDict []) (dict_get "last_alerts" st) in
        match detect_county_changes old_alerts (snapshot_items snapshot) with
        | Returned changes =>
            if negb (is_empty snapshot) then
              if (say_alert (app_config cfg) &&
                  (negb (is_empty (changes_detected changes))
                   || negb (truthy (state_get "last_sayalert" st))))%bool
              then [SayAlerts snapshot (max_alerts (app_config cfg))]
              else []
            else if (truthy old_alerts && say_all_clear (app_config cfg))%bool
                 then [SayAllClear]
                 else []
        | Raised _ => []
        end
    | Raised _ => []
    end
  else [].

(** ** state_manager.py: the accessors of the cache *)

(** [self._state_cache.get(key, default)] *)
Definition get_state_value (key : string) (dflt : pyval) (sm : StateManager) : pyval :=
  default dflt (dict_get key (_state_cache sm)).

(** [self._state_cache[key] = value], and the cache becomes dirty. *)
Definition set_state_value (key : string) (v : pyval) (sm : StateManager)
    : StateManager :=
  {| _state_cache := dict_set key v (_state_cache sm); _state_dirty := true |}.

Definition is_dirty (sm : StateManager) : bool := _state_dirty sm.

Definition is_set (v : pyval) : bool :=
  match v with VSet _ => true | _ => false end.

(** The characters [clean] removes. *)
Definition cleaned_chars : list Ascii.ascii := ["{"%char; "}"%char; quote_char].

(** ** constants.py and alert_processor.py: the table of alert strings *)

Definition ALERT_STRINGS : list string :=
  ["Flash Flood Warning"; "Flash Flood Watch"; "Flood Warning";
   "Flood Watch"; "Severe Thunderstorm Warning"; "Severe Thunderstorm Watch";
   "Tornado Warning"; "Tornado Watch"; "Winter Storm Warning";
   "Winter Storm Watch"; "Blizzard Warning"; "Ice Storm Warning";
   "Wind Chill Warning"; "Wind Chill Advisory"; "Heat Warning";
   "Heat Advisory"; "Dense Fog Advisory"; "Freezing Rain Advisory";
   "Frost Advisory"; "Freeze Warning"; "Hurricane Warning";
   "Hurricane Watch"; "Tropical Storm Warning"; "Tropical Storm Watch";
   "High Wind Warning"; "Wind Advisory"; "Dust Storm Warning";
   "Blowing Dust Advisory"; "Fire Weather Warning"; "Red Flag Warning";
   "Avalanche Warning"; "Avalanche Watch"; "Tsunami Warning";
   "Tsunami Watch"; "Coastal Flood Warning"; "Coastal Flood Watch";
   "Lakeshore Flood Warning"; "Lakeshore Flood Watch";
   "Rip Current Statement"; "High Surf Warning"; "High Surf Advisory";
   "Beach Hazards Statement"; "Small Craft Advisory"; "Gale Warning";
   "Storm Warning"; "Hurricane Force Wind Warning"; "Dense Smoke Advisory";
   "Air Quality Alert"; "Ashfall Warning"; "Volcanic Ash Advisory";
   "Freezing Spray Warning"; "Freezing Spray Advisory";
   "Hard Freeze Warning"; "Hard Freeze Watch"; "Frost Advisory";
   "Freeze Watch"; "Excessive Heat Warning"; "Excessive Heat Watch";
   "Heat Advisory"; "Wind Chill Warning"; "Wind Chill Watch";
   "Wind Chill Advisory"; "Lake Effect Snow Warning";
   "Lake Effect Snow Watch"; "Lake Effect Snow Advisory";
   "Winter Weather Advisory"; "Snow Squall Warning"; "Blowing Snow Advisory";
   "Blizzard Warning"; "Winter Storm Warning"; "Winter Storm Watch";
   "Ice Storm Warning"; "Freezing Rain Advisory";
   "Freezing Drizzle Advisory"; "Sleet Advisory"; "Heavy Sleet Warning";
   "Heavy Sleet Watch"; "Heavy Sleet Advisory"; "Heavy Snow Warning";
   "Heavy Snow Watch"; "Heavy Snow Advisory"; "Snow Advisory";
   "Heavy Freezing Spray Warning"; "Heavy Freezing Spray Watch";
   "Heavy Freezing Spray Advisory"; "Freezing Spray Warning";
   "Freezing Spray Watch"; "Freezing Spray Advisory";
   "Heavy Freezing Rain Warning"; "Heavy Freezing Rain Watch";
   "Heavy Freezing Rain Advisory"; "Freezing Rain Warning";
   "Freezing Rain Watch"; "Freezing Rain Advisory";
   "Heavy Freezing Drizzle Warning"; "Heavy Freezing Drizzle Watch";
   "Heavy Freezing Drizzle Advisory"; "Freezing Drizzle Warning";
   "Freezing Drizzle Watch"; "Freezing Drizzle Advisory";
   "Heavy Sleet Warning"; "Heavy Sleet Watch"; "Heavy Sleet Advisory";
   "Sleet Warning"; "Sleet Watch"; "Sleet Advisory"; "Heavy Snow Warning";
   "Heavy Snow Watch"; "Heavy Snow Advisory"; "Snow Warning"; "Snow Watch";
   "Snow Advisory"; "Heavy Freezing Spray Warning";
   "Heavy Freezing Spray Watch"; "Heavy Freezing Spray Advisory";
   "Freezing Spray Warning"; "Freezing Spray Watch";
   "Freezing Spray Advisory"; "Heavy Freezing Rain Warning";
   "Heavy Freezing Rain Watch"; "Heavy Freezing Rain Advisory";
   "Freezing Rain Warning"; "Freezing Rain Watch"; "Freezing Rain Advisory";
   "Heavy Freezing Drizzle Warning"; "Heavy Freezing Drizzle Watch";
   "Heavy Freezing Drizzle Advisory"; "Freezing Drizzle Warning";
   "Freezing Drizzle Watch"; "Freezing Drizzle Advisory";
   "Heavy Sleet Warning"; "Heavy Sleet Watch"; "Heavy Sleet Advisory";
   "Sleet Warning"; "Sleet Watch"; "Sleet Advisory"; "Heavy Snow Warning";
   "Heavy Snow Watch"; "Heavy Snow Advisory"; "Snow Warning"; "Snow Watch";
   "Snow Advisory"].

(** [list(range(1, len(ALERT_STRINGS) + 1))] *)
Definition ALERT_INDEXES : list Z :=
  map (fun i => Z.of_nat i + 1) (seq 0 (length ALERT_STRINGS)).

(** [l.index(x)]: the first position holding [x], [None] for ValueError. *)
Fixpoint list_index (x : string) (l : list string) : option nat :=
  match l with
  | [] => None
  | y :: l' =>
      if String.eqb y x then Some 0%nat
      else match list_index x l' with
           | Some i => Some (S i)
           | None => None
           end
  end.

(** [get_alert_index]: [None] when the string is not in the table. *)
Definition get_alert_index (alert_string : string) : option Z :=
  match list_index alert_string ALERT_STRINGS with
  | Some i => Some (Z.of_nat i + 1)
  | None => None
  end.

(** ** asterisk_integration.py *)

(** The loop of [send_to_nodes]: [play node audio_file] is the result of
    [subprocess.run] for that node, a return code or an exception; the
    nodes for which a command was issued are recorded. *)
Fixpoint play_on_nodes (play : Z -> string -> outcome Z) (audio_file : string)
    (nodes : list Z) (success_count : nat) (issued : list Z) : nat * list Z :=
  match nodes with
  | [] => (success_count, issued)
  | node :: rest =>
      let success_count :=
        match play node audio_file with
        | Returned returncode =>
            if Z.eqb returncode 0 then S success_count else success_count
        | Raised _ => success_count
        end in
      play_on_nodes play audio_file rest success_count (issued ++ [node])%list
  end.

(** [send_to_nodes(audio_file, nodes)]; [config_nodes] is
    [self.config.nodes]. *)
Definition send_to_nodes (play : Z -> string -> outcome Z) (config_nodes : list Z)
    (audio_file : string) (nodes : option (list Z)) : bool * list Z :=
  let nodes := default config_nodes nodes in
  if is_empty nodes then (false, [])
  else
    let '(success_count, issued) := play_on_nodes play audio_file nodes 0%nat [] in
    (Nat.eqb success_count (length nodes), issued).

(** A play command that returned code 0. *)
Definition played_ok (play : Z -> string -> outcome Z) (audio_file : string)
    (node : Z) : bool :=
  match play node audio_file with
  | Returned returncode => Z.eqb returncode 0
  | Raised _ => false
  end.

(** ** notification_service.py *)





Definition alert_message (alert_type : string) (counties : list string) : string :=
  let message := "Weather Alert: " ++ alert_type in
  if is_empty counties then message
  else message ++ " for " ++ String.concat ", " counties.


(** ** skydescribe.py: looking an alert up in the loaded state

    Strings are taken to be ASCII: [isdigit], [int] and [lower] are
    modelled on the ASCII digits and letters. *)

Definition is_ascii_string (s : string) : Prop :=
  Forall (fun c => (Ascii.nat_of_ascii c < 128)%nat) (list_ascii_of_string s).

Definition is_digit (c : Ascii.ascii) : bool :=
  (Nat.leb 48 (Ascii.nat_of_ascii c) && Nat.leb (Ascii.nat_of_ascii c) 57)%bool.

(** [s.isdigit()]: not empty, digits only. *)
Definition isdigit (s : string) : bool :=
  (negb (String.eqb s "") && forallb is_digit (list_ascii_of_string s))%bool.

(** [int(s)] for a string of digits. *)
Definition int_of_digits (s : string) : Z :=
  fold_left (fun acc c => 10 * acc + (Z.of_nat (Ascii.nat_of_ascii c) - 48))
    (list_ascii_of_string s) 0.

Definition lower_char (c : Ascii.ascii) : Ascii.ascii :=
  if (Nat.leb 65 (Ascii.nat_of_ascii c) && Nat.leb (Ascii.nat_of_ascii c) 90)%bool
  then Ascii.ascii_of_nat (Ascii.nat_of_ascii c + 32)
  else c.

(** [s.lower()] *)
Fixpoint lower (s : string) : string :=
  match s with
  | EmptyString => EmptyString
  | String c s' => String (lower_char c) (lower s')
  end.

(** The dictionary [find_alert_by_index_or_title] returns. *)
Record FoundAlert := {
  found_type : string;
  found_data : pyval;
  found_index : option Z
}.

(** The first alert type that contains the search term, letter case
    aside. *)
Fixpoint find_by_title (search_term : string) (items : list (string * pyval))
    : option FoundAlert :=
  match items with
  | [] => None
  | (alert_type, alert_data) :: rest =>
      if str_contains (lower search_term) (lower alert_type)
      then Some {| found_type := alert_type; found_data := alert_data;
                   found_index := None |}
      else find_by_title search_term rest
  end.

(** [int(s)] for a string of digits: ValueError beyond 4300 digits,
    leading zeros included. *)
Definition py_int (s : string) : outcome Z :=
  if Nat.ltb INT_MAX_STR_DIGITS (String.length s) then Raised ValueError
  else Returned (int_of_digits s).

(** [find_alert_by_index_or_title]: [None] also stands for the exception
    caught when [int] raises or when [last_alerts] is not a dictionary. *)
Definition find_alert_by_index_or_title (state : list (string * pyval))
    (search_term : string) : option FoundAlert :=
  match default (VDict []) (dict_get "last_alerts" state) with
  | VDict items =>
      let by_index : outcome (option FoundAlert) :=
        if isdigit search_term then
          let? index := py_int search_term in
          if (Z.leb 0 index && Z.ltb index (Z.of_nat (length items)))%bool then
            match items !! Z.to_nat index with
            | Some (alert_type, alert_data) =>
                Returned (Some {| found_type := alert_type; found_data := alert_data;
                                  found_index := Some index |})
            | None => Returned None
            end
          else Returned None
        else Returned None in
      match by_index with
      | Raised _ => None
      | Returned (Some found) => Some found
      | Returned None => find_by_title search_term items
      end
  | _ => None
  end.

Definition is_alert_notification (c : Call) : bool :=
  match c with AlertNotification _ _ _ => true | _ => false end.

(** The notification [_handle_active_alerts] sends for an alert type. *)
Definition notification_of (kv : string * list AlertData) : Call :=
  AlertNotification (fst kv) (map county_code (snd kv)) (max_severity (snd kv)).

(** Collaborators that return from every call. *)
Definition returning (c : Collaborators) : Prop :=
  (forall alerts max, is_returned (alert_announcer_say_alerts c alerts max) = true)
  /\ (forall t counties sev,
        is_returned (notification_service_send_alert_notification c t counties sev) = true).

(** * Properties *)

(** ** Strings and dictionaries *)

Lemma append_cons (c : Ascii.ascii) (a b : string) :
  String c a ++ b = String c (a ++ b).
Proof. reflexivity. Qed.

Lemma prefix_spec (w s : string) :
  String.prefix w s = true <-> exists b : string, s = w ++ b.
Proof.
  revert s. induction w as [|c w IH]; intros [|c' s]; simpl.
  - split; [intros _; by exists "" | done].
  - split; [intros _; by exists (String c' s) | done].
  - split; [done | intros [b Hb]; discriminate].
  - destruct (Ascii.ascii_dec c c') as [->|Hne].
    + rewrite IH. split; intros [b Hb]; exists b;
        rewrite append_cons in *; congruence.
    + split; [done | intros [b Hb]; rewrite append_cons in Hb; congruence].
Qed.

Lemma str_contains_spec (w s : string) :
  str_contains w s = true <-> occurs_in w s.
Proof.
  unfold occurs_in. induction s as [|c s IH].
  - destruct w as [|c w]; simpl.
    + split; [intros _; by exists "", "" | done].
    + split; [done|]. intros ([|? a] & b & Hab); discriminate.
  - change (str_contains w (String c s))
      with (String.prefix w (String c s) || str_contains w s).
    rewrite orb_true_iff, prefix_spec, IH. split.
    + intros [[b Hb] | (a & b & Hab)].
      * by exists "", b.
      * exists (String c a), b. rewrite append_cons. by rewrite Hab.
    + intros ([|c' a] & b & Hab).
      * left. by exists b.
      * right. exists a, b. rewrite append_cons in Hab. congruence.
Qed.

Lemma str_contains_false (w s : string) :
  str_contains w s = false <-> ~ occurs_in w s.
Proof.
  rewrite <- str_contains_spec. destruct (str_contains w s); split; congruence.
Qed.

Lemma dict_get_Some_elem_of {V} (k : string) (v : V) (d : pydict V) :
  dict_get k d = Some v -> (k, v) ∈ d.
Proof.
  induction d as [|[k' v'] d IH]; simpl; [done|].
  destruct (String.eqb_spec k k') as [->|Hne].
  - intros [= ->]. left.
  - intros H. right. auto.
Qed.

Lemma dict_get_None {V} (k : string) (d : pydict V) :
  dict_get k d = None <-> k ∉ dict_keys d.
Proof.
  unfold dict_keys. induction d as [|[k' v'] d IH]; simpl.
  - split; [intros _; apply not_elem_of_nil | done].
  - rewrite not_elem_of_cons. destruct (String.eqb_spec k k') as [->|Hne].
    + split; [done | intros [? _]; done].
    + rewrite IH. tauto.
Qed.

Lemma dict_get_NoDup {V} (k : string) (v : V) (d : pydict V) :
  NoDup (dict_keys d) -> (k, v) ∈ d -> dict_get k d = Some v.
Proof.
  unfold dict_keys. induction d as [|[k' v'] d IH]; simpl; intros Hnd Hin.
  - by apply elem_of_nil in Hin.
  - apply NoDup_cons in Hnd as [Hk' Hnd].
    apply elem_of_cons in Hin as [[= -> ->] | Hin].
    + by rewrite String.eqb_refl.
    + destruct (String.eqb_spec k k') as [->|Hne]; [|auto].
      exfalso. apply Hk'. apply list_elem_of_In.
      apply list_elem_of_In in Hin. exact (in_map fst _ _ Hin).
Qed.

(** ** C7: severity resolution *)

(** C7. [_determine_severity] returns the value of the fixed table
    Extreme 4, Severe 3, Moderate 2, Minor 1, Unknown 0 when the
    provider-supplied severity is one of its keys; otherwise the value of
    the first of Warning 4, Watch 3, Advisory 2, Statement 1, tried in
    that order, that occurs in the event name (the empty string when the
    event is absent); otherwise 0. *)
Theorem determine_severity_spec (properties : Properties) :
  let api := dict_get "severity" properties in
  let ev := default "" (dict_get "event" properties) in
  let r := _determine_severity properties in
  (forall s v, api = Some s ->
     (s, v) ∈ [("Extreme", 4); ("Severe", 3); ("Moderate", 2); ("Minor", 1); ("Unknown", 0)] ->
     r = v)
  /\ ((forall s, api = Some s ->
         s ∉ ["Extreme"; "Severe"; "Moderate"; "Minor"; "Unknown"]) ->
      (occurs_in "Warning" ev -> r = 4)
      /\ (~ occurs_in "Warning" ev -> occurs_in "Watch" ev -> r = 3)
      /\ (~ occurs_in "Warning" ev -> ~ occurs_in "Watch" ev ->
          occurs_in "Advisory" ev -> r = 2)
      /\ (~ occurs_in "Warning" ev -> ~ occurs_in "Watch" ev ->
          ~ occurs_in "Advisory" ev -> occurs_in "Statement" ev -> r = 1)
      /\ (~ occurs_in "Warning" ev -> ~ occurs_in "Watch" ev ->
          ~ occurs_in "Advisory" ev -> ~ occurs_in "Statement" ev -> r = 0)).
Proof.
  intros api ev r. split.
  - intros s v Hapi Hin. subst r. unfold _determine_severity. fold api. rewrite Hapi.
    repeat (apply elem_of_cons in Hin as [[= -> ->] | Hin]; [reflexivity|]).
    by apply elem_of_nil in Hin.
  - intros Hmiss.
    assert (Hnone : api ≫= (fun s => dict_get s API_SEVERITY_MAPPING) = None).
    { destruct api as [s|] eqn:Hapi; [|done].
      change (dict_get s API_SEVERITY_MAPPING = None).
      apply dict_get_None. exact (Hmiss s eq_refl). }
    assert (Hr : r = match first_word WORD_SEVERITY_MAPPING ev with
                     | Some sev => value sev | None => 0 end).
    { subst r. unfold _determine_severity. fold api. by rewrite Hnone. }
    rewrite Hr. simpl.
    rewrite <- !str_contains_false, <- !str_contains_spec.
    repeat split; intros; repeat match goal with H : str_contains _ _ = _ |- _ => rewrite H end; reflexivity.
Qed.

Lemma determine_severity_spec_witness :
  _determine_severity [("event", "Flood Watch")] = 3.
Proof.
  pose proof (determine_severity_spec [("event", "Flood Watch")]) as [_ H].
  simpl in H. apply H.
  - intros s Hs. discriminate.
  - by apply str_contains_false.
  - by apply str_contains_spec.
Defined.

(** ** C6: sorting by severity *)

Section stable_sort.
Context {A : Type} (key : A -> Z).

Lemma insert_desc_perm (x : A) (l : list A) : insert_desc key x l ≡ₚ x :: l.
Proof.
  induction l as [|y l IH]; simpl; [done|].
  destruct (Z.ltb (key x) (key y)); [|done].
  rewrite IH. apply Permutation_swap.
Qed.

Lemma sort_reverse_perm (l : list A) : sort_reverse key l ≡ₚ l.
Proof.
  induction l as [|x l IH]; simpl; [done|].
  by rewrite insert_desc_perm, IH.
Qed.

Lemma insert_desc_sorted (x : A) (l : list A) :
  StronglySorted (desc key) l -> StronglySorted (desc key) (insert_desc key x l).
Proof.
  induction 1 as [|y l Hl IH Hy]; simpl.
  - repeat constructor.
  - destruct (Z.ltb_spec (key x) (key y)) as [Hlt|Hge].
    + constructor; [exact IH|].
      rewrite Forall_forall. intros z Hz.
      rewrite insert_desc_perm in Hz. apply elem_of_cons in Hz as [->|Hz].
      * unfold desc. lia.
      * rewrite Forall_forall in Hy. auto.
    + constructor; [by constructor|].
      constructor; [exact Hge|].
      eapply Forall_impl; [exact Hy|]. unfold desc. intros z Hz. lia.
Qed.

Lemma sort_reverse_sorted (l : list A) : StronglySorted (desc key) (sort_reverse key l).
Proof.
  induction l as [|x l IH]; simpl; [constructor|].
  by apply insert_desc_sorted.
Qed.

Lemma insert_desc_filter (v : Z) (x : A) (l : list A) :
  List.filter (fun a => Z.eqb (key a) v) (insert_desc key x l)
  = List.filter (fun a => Z.eqb (key a) v) (x :: l).
Proof.
  induction l as [|y l IH]; [done|].
  simpl insert_desc. destruct (Z.ltb_spec (key x) (key y)) as [Hlt|Hge]; [|done].
  simpl in *. rewrite IH.
  destruct (Z.eqb_spec (key x) v), (Z.eqb_spec (key y) v); try done. lia.
Qed.

Lemma sort_reverse_stable (v : Z) (l : list A) :
  List.filter (fun a => Z.eqb (key a) v) (sort_reverse key l)
  = List.filter (fun a => Z.eqb (key a) v) l.
Proof.
  induction l as [|x l IH]; [done|].
  simpl sort_reverse. rewrite insert_desc_filter. simpl. by rewrite IH.
Qed.
End stable_sort.

Lemma sort_reverse_map {A B} (key : B -> Z) (f : A -> B) (l : list A) :
  sort_reverse key (map f l) = map f (sort_reverse (fun a => key (f a)) l).
Proof.
  induction l as [|x l IH]; [done|]. simpl. rewrite IH.
  generalize (sort_reverse (fun a => key (f a)) l). intros l'.
  induction l' as [|y l' IH']; [done|]. simpl.
  destruct (Z.ltb (key (f x)) (key (f y))); [|done]. simpl. by rewrite IH'.
Qed.

Lemma fold_max_ge (l : list Z) (x : Z) : x <= fold_left Z.max l x.
Proof.
  revert x. induction l as [|y l IH]; intros x; simpl; [lia|].
  specialize (IH (Z.max x y)). lia.
Qed.

Lemma fold_max_upper (l : list Z) (x z : Z) : z ∈ l -> z <= fold_left Z.max l x.
Proof.
  revert x. induction l as [|y l IH]; intros x Hz; simpl.
  - by apply elem_of_nil in Hz.
  - apply elem_of_cons in Hz as [->|Hz]; [|auto].
    pose proof (fold_max_ge l (Z.max x y)). lia.
Qed.

Lemma fold_max_attained (l : list Z) (x : Z) :
  fold_left Z.max l x = x \/ fold_left Z.max l x ∈ l.
Proof.
  revert x. induction l as [|y l IH]; intros x; simpl; [by left|].
  destruct (IH (Z.max x y)) as [H|H].
  - rewrite H. destruct (Z.max_spec x y) as [[_ ->]|[_ ->]]; [right; left | by left].
  - right. by right.
Qed.

(** [max_severity] is the largest severity among the records. *)
Lemma max_severity_spec (alert_list : list AlertData) :
  alert_list <> [] ->
  py_max (map severity alert_list) = Returned (max_severity alert_list)
  /\ (exists a, a ∈ alert_list /\ severity a = max_severity alert_list)
  /\ (forall a, a ∈ alert_list -> severity a <= max_severity alert_list).
Proof.
  destruct alert_list as [|a0 l]; [done|]. intros _.
  unfold max_severity. simpl. split; [done|]. split.
  - destruct (fold_max_attained (map severity l) (severity a0)) as [H|H].
    + exists a0. split; [left | done].
    + apply list_elem_of_In, in_map_iff in H as (a & Ha & Hin).
      exists a. split; [right; by apply list_elem_of_In | done].
  - intros a [->|Hin]%elem_of_cons; [apply fold_max_ge|].
    apply fold_max_upper. apply list_elem_of_In, in_map, list_elem_of_In, Hin.
Qed.

Lemma dict_set_fresh {V} (k : string) (v : V) (d : pydict V) :
  k ∉ dict_keys d -> dict_set k v d = (d ++ [(k, v)])%list.
Proof.
  unfold dict_keys. induction d as [|[k' v'] d IH]; simpl; [done|].
  intros [Hne Hk]%not_elem_of_cons.
  destruct (String.eqb_spec k k'); [done|]. by rewrite IH.
Qed.

Lemma dict_keys_app {V} (d d' : pydict V) :
  dict_keys (d ++ d')%list = (dict_keys d ++ dict_keys d')%list.
Proof. apply map_app. Qed.

Lemma dict_get_perm {V} (k : string) (d d' : pydict V) :
  NoDup (dict_keys d) -> d ≡ₚ d' -> dict_get k d = dict_get k d'.
Proof.
  intros Hnd Hp.
  assert (Hnd' : NoDup (dict_keys d')).
  { unfold dict_keys in *.
    assert (Hk : map fst d ≡ₚ map fst d') by (by apply Permutation_map).
    by rewrite <- Hk. }
  destruct (dict_get k d') as [v|] eqn:Hget.
  - apply dict_get_NoDup; [done|]. rewrite Hp. by apply dict_get_Some_elem_of.
  - apply dict_get_None. apply dict_get_None in Hget.
    unfold dict_keys in *. intros Hin. apply Hget.
    eapply elem_of_Permutation_proper; [|exact Hin].
    symmetry. by apply Permutation_map.
Qed.

(** Rebuilding a dictionary from a list of distinct keys keeps the list. *)
Lemma rebuild_ordered (alerts : Snapshot) (l acc : Snapshot) :
  NoDup (dict_keys (acc ++ l)%list) ->
  (forall kv, kv ∈ l -> dict_get (fst kv) alerts = Some (snd kv)) ->
  foldM (fun (sorted_alerts : Snapshot) (p : AlertType * Z) =>
           match dict_get (fst p) alerts with
           | Some alert_list => Returned (dict_set (fst p) alert_list sorted_alerts)
           | None => Raised KeyError
           end)
    (map (fun kv => (fst kv, max_severity (snd kv))) l) acc
  = Returned (acc ++ l)%list.
Proof.
  revert acc. induction l as [|[k v] l IH]; intros acc Hnd Hget; simpl.
  - by rewrite app_nil_r.
  - pose proof (Hget (k, v) ltac:(left)) as Hkv. simpl in Hkv. rewrite Hkv. simpl.
    rewrite dict_keys_app in Hnd. apply NoDup_app in Hnd as (Hacc & Hdisj & Hl).
    rewrite dict_set_fresh.
    2:{ intros Hin. apply (Hdisj k Hin). left. }
    rewrite IH.
    + by rewrite <- app_assoc.
    + rewrite <- app_assoc. simpl. rewrite dict_keys_app. apply NoDup_app. done.
    + intros kv Hin. apply Hget. by right.
Qed.

Lemma alert_severities_eq (alerts : Snapshot) :
  Forall (fun kv => snd kv <> []) alerts ->
  mapM (fun kv : AlertType * list AlertData =>
          let? max_severity := py_max (map severity (snd kv)) in
          Returned (fst kv, max_severity)) alerts
  = Returned (map (fun kv => (fst kv, max_severity (snd kv))) alerts).
Proof.
  induction 1 as [|kv l Hkv Hl IH]; [done|].
  cbn [mapM]. destruct (max_severity_spec (snd kv) Hkv) as [Hm _].
  rewrite Hm, IH. reflexivity.
Qed.

(** The result of the sort is the stable, severity-descending
    rearrangement of the input bindings. *)
Lemma sort_alerts_by_severity_eq (alerts : Snapshot) :
  NoDup (dict_keys alerts) ->
  Forall (fun kv => snd kv <> []) alerts ->
  sort_alerts_by_severity alerts
  = Returned (sort_reverse (fun kv => max_severity (snd kv)) alerts).
Proof.
  intros Hnd Hne. unfold sort_alerts_by_severity.
  rewrite alert_severities_eq by done. simpl.
  rewrite (sort_reverse_map snd (fun kv : AlertType * list AlertData =>
                                   (fst kv, max_severity (snd kv)))).
  simpl.
  pose proof (sort_reverse_perm (fun kv : AlertType * list AlertData =>
                                   max_severity (snd kv)) alerts) as Hp.
  rewrite (rebuild_ordered alerts _ []); [done| |].
  - simpl. unfold dict_keys in *.
    assert (Hk : map fst (sort_reverse (fun kv : AlertType * list AlertData =>
                                          max_severity (snd kv)) alerts)
                 ≡ₚ map fst alerts) by (by apply Permutation_map).
    by rewrite Hk.
  - intros [k v] Hin. simpl. apply dict_get_NoDup; [done|]. by rewrite <- Hp.
Qed.

(** C6. For an alert mapping (a dictionary: distinct keys) in which every
    AlertType has at least one record, [sort_alerts_by_severity] returns
    a mapping with the same AlertTypes bound to the same record lists,
    ordered by descending maximum record severity, in which AlertTypes
    of equal maximum severity keep their input order. *)
Theorem sort_alerts_by_severity_spec (alerts : Snapshot) :
  NoDup (dict_keys alerts) ->
  Forall (fun kv => snd kv <> []) alerts ->
  exists sorted_alerts,
    sort_alerts_by_severity alerts = Returned sorted_alerts
    /\ sorted_alerts ≡ₚ alerts
    /\ (forall k, dict_get k sorted_alerts = dict_get k alerts)
    /\ StronglySorted
         (fun a b => max_severity (snd b) <= max_severity (snd a)) sorted_alerts
    /\ (forall v,
          List.filter (fun kv => Z.eqb (max_severity (snd kv)) v) sorted_alerts
          = List.filter (fun kv => Z.eqb (max_severity (snd kv)) v) alerts).
Proof.
  intros Hnd Hne. eexists. split; [by apply sort_alerts_by_severity_eq|].
  pose proof (sort_reverse_perm (fun kv : AlertType * list AlertData =>
                                   max_severity (snd kv)) alerts) as Hp.
  split; [done|]. split; [|split].
  - intros k. symmetry. apply dict_get_perm; [done|]. by symmetry.
  - apply (sort_reverse_sorted (fun kv : AlertType * list AlertData =>
                                  max_severity (snd kv))).
  - intros v. apply (sort_reverse_stable (fun kv : AlertType * list AlertData =>
                                            max_severity (snd kv))).
Qed.

(** ** The change detector on dictionary records *)

Lemma county_codes_of_records (l : list pyval) :
  forallb (fun r => bool_decide (is_Some (record_county r))) l = true ->
  county_codes_of (VList l) = Returned (map HStr (omap record_county l)).
Proof.
  unfold county_codes_of. simpl. induction l as [|r l IH]; simpl; [done|].
  intros [Hr Hl]%andb_true_iff. apply bool_decide_eq_true in Hr as [c Hc].
  rewrite Hc. specialize (IH Hl).
  destruct r as [| | | | |d| |]; try discriminate. simpl in *.
  destruct (dict_get "county_code" d) as [[| | |s| | | |]|]; try discriminate.
  injection Hc as ->. simpl. by rewrite IH.
Qed.

Lemma list_to_set_strings (l : list string) :
  list_to_set (map HStr l) =@{gset hashable} set_map HStr (list_to_set l : gset string).
Proof.
  apply set_eq. intros h. rewrite elem_of_list_to_set, elem_of_map, list_elem_of_In, in_map_iff.
  split.
  - intros (s & <- & Hs). exists s. split; [done|].
    by apply elem_of_list_to_set, list_elem_of_In.
  - intros (s & -> & Hs). exists s. split; [done|].
    by apply elem_of_list_to_set, list_elem_of_In in Hs.
Qed.

Lemma difference_strings (X Y : gset string) :
  set_map HStr X ∖ set_map HStr Y =@{gset hashable} set_map HStr (X ∖ Y).
Proof.
  apply set_eq. intros h. rewrite elem_of_difference, !elem_of_map. split.
  - intros [(s & -> & Hs) Hn]. exists s. split; [done|].
    apply elem_of_difference. split; [done|]. intros HY. apply Hn. eauto.
  - intros (s & -> & [Hs Hn]%elem_of_difference). split; [eauto|].
    intros (s' & [= <-] & HY). done.
Qed.

Lemma mapM_clean_code (l : list hashable) :
  Forall (fun h => exists s, h = HStr s) l ->
  exists l',
    mapM clean_code l = Returned l'
    /\ forall x, x ∈ l' <-> exists s, HStr s ∈ l /\ x = clean s.
Proof.
  induction 1 as [|h l [s ->] _ (l' & IH & Hl')]; simpl.
  - exists []. split; [done|]. intros x. split; [by intros ?%elem_of_nil|].
    by intros (s & ?%elem_of_nil & _).
  - rewrite IH. simpl. exists (clean s :: l'). split; [done|].
    intros x. rewrite elem_of_cons, Hl'. split.
    + intros [->|(s' & Hs' & ->)]; [exists s | exists s'];
        (split; [|done]); [left | by right].
    + intros (s' & Hs' & ->). apply elem_of_cons in Hs' as [[= ->]|Hs']; [by left|].
      right. eauto.
Qed.

(** String codes are cleaned one by one; any other code makes the
    cleaning raise. *)
Lemma clean_codes_strings (X : gset string) :
  clean_codes (set_map HStr X) = Returned (set_map clean X).
Proof.
  unfold clean_codes.
  destruct (mapM_clean_code (elements (set_map (D:=gset hashable) HStr X)))
    as (l' & -> & Hl').
  { apply Forall_forall. intros h (s & -> & _)%elem_of_elements%elem_of_map. eauto. }
  simpl. f_equal. apply set_eq. intros x.
  rewrite elem_of_list_to_set, Hl', elem_of_map. split.
  - intros (s & (s' & [= <-] & Hs)%elem_of_elements%elem_of_map & ->). eauto.
  - intros (s & -> & Hs). exists s. split; [|done].
    apply elem_of_elements, elem_of_map. eauto.
Qed.

Lemma clean_codes_raises (X : gset hashable) (h : hashable) :
  h ∈ X -> (forall s, h <> HStr s) -> clean_codes X = Raised TypeError.
Proof.
  intros Hh Hns. unfold clean_codes.
  assert (Hm : forall l, h ∈ l -> mapM clean_code l = Raised TypeError).
  { induction l as [|h' l IH]; [by intros ?%elem_of_nil|].
    intros [->|Hl]%elem_of_cons; simpl.
    - destruct h' as [| |s]; try done. by destruct (Hns s).
    - destruct h' as [| |s]; try done. simpl. by rewrite (IH Hl). }
  by rewrite Hm by by apply elem_of_elements.
Qed.

Lemma county_codes_of_record_list (v : pyval) :
  is_record_list v = true ->
  exists l, county_codes_of v = Returned l
            /\ list_to_set l =@{gset hashable} set_map HStr (counties v).
Proof.
  destruct v; try discriminate. simpl. intros H.
  eexists. split; [by apply county_codes_of_records | apply list_to_set_strings].
Qed.

Lemma is_dict_snapshot_get (d : pydict pyval) (k : string) (v : pyval) :
  is_dict_snapshot d = true -> dict_get k d = Some v -> is_record_list v = true.
Proof.
  intros Hd Hget. apply dict_get_Some_elem_of in Hget.
  unfold is_dict_snapshot in Hd. rewrite forallb_forall in Hd.
  apply (Hd (k, v)). by apply list_elem_of_In.
Qed.

Lemma dict_get_set {V} (k k' : string) (v : V) (d : pydict V) :
  dict_get k (dict_set k' v d) = if String.eqb k k' then Some v else dict_get k d.
Proof.
  induction d as [|[k0 v0] d IH]; simpl.
  - by destruct (String.eqb k k').
  - destruct (String.eqb_spec k' k0) as [->|Hne]; simpl.
    + by destruct (String.eqb k k0).
    + rewrite IH. destruct (String.eqb_spec k k0) as [->|Hne'].
      * destruct (String.eqb_spec k0 k'); [congruence | done].
      * done.
Qed.

Lemma detect_step_eq (old_alerts new_alerts : pydict pyval) (acc : Changes)
    (name : string) (info : pyval) :
  is_dict_snapshot old_alerts = true ->
  is_record_list info = true ->
  dict_get name new_alerts = Some info ->
  detect_step (VDict old_alerts) new_alerts acc (name, info)
  = Returned
      match change_entry old_alerts name info with
      | Some entry =>
          {| changes_detected := dict_set name entry (changes_detected acc);
             alerts_with_changed_counties :=
               dict_set name info (alerts_with_changed_counties acc) |}
      | None => acc
      end.
Proof.
  intros Hold Hinfo Hnew. unfold detect_step, change_entry. simpl.
  unfold dict_mem. destruct (dict_get name old_alerts) as [old_info|] eqn:Hget; simpl; [|done].
  destruct (county_codes_of_record_list old_info) as (lo & -> & Hlo).
  { by eapply is_dict_snapshot_get. }
  destruct (county_codes_of_record_list info Hinfo) as (ln & -> & Hln).
  simpl. rewrite Hlo, Hln, !difference_strings, !clean_codes_strings. simpl.
  rewrite Hnew. by destruct (set_truthy _ || set_truthy _)%bool.
Qed.

Lemma detect_fold (old_alerts new_alerts l : pydict pyval) (acc : Changes) :
  is_dict_snapshot old_alerts = true ->
  is_dict_snapshot l = true ->
  NoDup (dict_keys l) ->
  (forall kv, kv ∈ l -> dict_get (fst kv) new_alerts = Some (snd kv)) ->
  exists ch,
    foldM (detect_step (VDict old_alerts) new_alerts) l acc = Returned ch
    /\ forall name,
         dict_get name (changes_detected ch)
         = match dict_get name l ≫= change_entry old_alerts name with
           | Some entry => Some entry
           | None => dict_get name (changes_detected acc)
           end.
Proof.
  intros Hold. revert acc. induction l as [|[k info] l IH]; intros acc Hl Hnd Hnew.
  - exists acc. split; [done|]. intros name. done.
  - simpl in Hl. apply andb_true_iff in Hl as [Hinfo Hl].
    unfold dict_keys in Hnd. simpl in Hnd. apply NoDup_cons in Hnd as [Hk Hnd].
    simpl. rewrite (detect_step_eq old_alerts new_alerts acc k info Hold Hinfo).
    2:{ apply (Hnew (k, info)). left. }
    simpl.
    edestruct IH as (ch & -> & Hch); [exact Hl | exact Hnd | |].
    { intros kv Hkv. apply Hnew. by right. }
    exists ch. split; [done|]. intros name. rewrite Hch.
    destruct (String.eqb_spec name k) as [->|Hne].
    + replace (dict_get k l) with (@None pyval).
      2:{ symmetry. by apply dict_get_None. }
      simpl. destruct (change_entry old_alerts k info) as [entry|]; simpl; [|done].
      by rewrite dict_get_set, String.eqb_refl.
    + destruct (dict_get name l ≫= change_entry old_alerts name); [done|].
      destruct (change_entry old_alerts k info) as [entry|]; simpl; [|done].
      rewrite dict_get_set. by destruct (String.eqb_spec name k).
Qed.

Lemma set_truthy_spec (X : gset string) : set_truthy X = true <-> X <> ∅.
Proof.
  unfold set_truthy. rewrite negb_true_iff, bool_decide_eq_false. done.
Qed.

Lemma set_map_clean_empty (X : gset string) :
  set_map (D:=gset string) clean X = ∅ <-> X = ∅.
Proof.
  split.
  - intros H. apply set_eq. intros x. split; [|set_solver].
    intros Hx. assert (clean x ∈ (set_map clean X : gset string)) as Hc
      by (apply elem_of_map; eauto).
    rewrite H in Hc. set_solver.
  - intros ->. apply set_map_empty.
Qed.

Lemma sets_differ (X Y : gset string) :
  X <> Y <-> X ∖ Y <> ∅ \/ Y ∖ X <> ∅.
Proof.
  split.
  - intros Hne.
    destruct (decide (X ∖ Y = ∅)) as [HXY|]; [|by left].
    destruct (decide (Y ∖ X = ∅)) as [HYX|]; [|by right].
    exfalso. apply Hne. apply set_eq. intros x. split; intros Hx.
    + destruct (decide (x ∈ Y)); [done|]. exfalso.
      assert (x ∈ X ∖ Y) as H by set_solver. rewrite HXY in H. set_solver.
    + destruct (decide (x ∈ X)); [done|]. exfalso.
      assert (x ∈ Y ∖ X) as H by set_solver. rewrite HYX in H. set_solver.
  - intros [H|H] Heq; apply H; rewrite Heq; apply difference_diag_L.
Qed.

Lemma change_entry_spec (old_alerts : pydict pyval) (name : string) (info : pyval)
    (entry : ChangeInfo) :
  change_entry old_alerts name info = Some entry <->
  exists old_info,
    dict_get name old_alerts = Some old_info
    /\ counties info <> counties old_info
    /\ entry = {| ci_old := set_map HStr (counties old_info);
                  ci_added := set_map clean (counties info ∖ counties old_info);
                  ci_removed := set_map clean (counties old_info ∖ counties info) |}.
Proof.
  unfold change_entry.
  destruct (dict_get name old_alerts) as [old_info|].
  2:{ split; [done | intros (? & ? & _); done]. }
  destruct (set_truthy _ || set_truthy _)%bool eqn:Ht.
  - apply orb_true_iff in Ht.
    rewrite !set_truthy_spec, !set_map_clean_empty in Ht.
    split.
    + intros [= <-]. exists old_info. split; [done|]. split; [|done].
      apply sets_differ. tauto.
    + intros (o & [= <-] & _ & ->). done.
  - apply orb_false_iff in Ht as [Ha Hr].
    apply not_true_iff_false in Ha. apply not_true_iff_false in Hr.
    rewrite set_truthy_spec, set_map_clean_empty in Ha, Hr.
    split; [done|]. intros (o & [= <-] & Hne & _).
    apply sets_differ in Hne. tauto.
Qed.

(** On snapshots whose records are dictionaries with a string county
    code (the records the signature of [detect_county_changes] declares,
    not the ones [run] passes), an AlertType is reported as changed
    exactly when it is in the previous and in the current snapshot and
    its sets of county codes differ; the entry holds the previous
    counties and the cleaned added and removed ones; a type absent from
    either snapshot is not reported. *)
Lemma detect_on_dictionaries (old_alerts new_alerts : pydict pyval) :
  is_dict_snapshot old_alerts = true ->
  is_dict_snapshot new_alerts = true ->
  NoDup (dict_keys new_alerts) ->
  exists changes,
    detect_county_changes (VDict old_alerts) new_alerts = Returned changes
    /\ (forall name,
          dict_mem name (changes_detected changes) = true <->
          exists old_info new_info,
            dict_get name old_alerts = Some old_info
            /\ dict_get name new_alerts = Some new_info
            /\ counties new_info <> counties old_info)
    /\ (forall name entry,
          dict_get name (changes_detected changes) = Some entry ->
          exists old_info new_info,
            dict_get name old_alerts = Some old_info
            /\ dict_get name new_alerts = Some new_info
            /\ ci_old entry = set_map HStr (counties old_info)
            /\ ci_added entry = set_map clean (counties new_info ∖ counties old_info)
            /\ ci_removed entry = set_map clean (counties old_info ∖ counties new_info)
            /\ (counties new_info ∖ counties old_info <> ∅
                \/ counties old_info ∖ counties new_info <> ∅))
    /\ (forall name,
          dict_get name old_alerts = None \/ dict_get name new_alerts = None ->
          dict_mem name (changes_detected changes) = false).
Proof.
  intros Hold Hnew Hnd. unfold detect_county_changes.
  destruct (detect_fold old_alerts new_alerts new_alerts
              {| changes_detected := []; alerts_with_changed_counties := [] |}
              Hold Hnew Hnd) as (ch & Hrun & Hch).
  { intros [k v] Hin. by apply dict_get_NoDup. }
  exists ch. split; [exact Hrun|].
  assert (Hget : forall name,
             dict_get name (changes_detected ch)
             = dict_get name new_alerts ≫= change_entry old_alerts name).
  { intros name. rewrite Hch. simpl.
    by destruct (dict_get name new_alerts ≫= change_entry old_alerts name). }
  split; [|split].
  - intros name. unfold dict_mem. rewrite Hget. split.
    + destruct (dict_get name new_alerts) as [new_info|] eqn:Hn; simpl; [|done].
      destruct (change_entry old_alerts name new_info) as [entry|] eqn:He; [|done].
      intros _. apply change_entry_spec in He as (o & Ho & Hne & _). eauto.
    + intros (o & n & Ho & -> & Hne). simpl.
      destruct (change_entry old_alerts name n) as [entry|] eqn:He; [done|].
      exfalso. eapply eq_None_not_Some; [exact He|].
      eexists. apply change_entry_spec. eauto.
  - intros name entry. rewrite Hget.
    destruct (dict_get name new_alerts) as [new_info|] eqn:Hn; simpl; [|done].
    intros (o & Ho & Hne & ->)%change_entry_spec.
    exists o, new_info. simpl. repeat split; try done. by apply sets_differ.
  - intros name H. unfold dict_mem. rewrite Hget.
    destruct (dict_get name new_alerts) as [new_info|] eqn:Hn; simpl; [|done].
    destruct H as [H|H]; [|done]. unfold change_entry. by rewrite H.
Qed.

(** ** C9: fetching the zones *)

Lemma fetch_county_alerts_fst client session_get (c : string) :
  fst (fetch_county_alerts client session_get c) = c.
Proof.
  unfold fetch_county_alerts.
  by destruct (request_alerts client session_get c) as [[?|]|].
Qed.

Lemma lookup_map {A B} (f : A -> B) (l : list A) (i : nat) :
  map f l !! i = f <$> l !! i.
Proof.
  revert i. induction l as [|x l IH]; intros [|i]; simpl; done.
Qed.

Lemma dict_set_NoDup {V} (k : string) (v : V) (d : pydict V) :
  NoDup (dict_keys d) -> NoDup (dict_keys (dict_set k v d)).
Proof.
  unfold dict_keys. induction d as [|[k' v'] d IH]; simpl; intros Hnd.
  - apply NoDup_singleton.
  - apply NoDup_cons in Hnd as [Hk' Hnd].
    destruct (String.eqb_spec k k') as [->|Hne]; simpl.
    + by apply NoDup_cons.
    + apply NoDup_cons. split; [|auto].
      change (k' ∉ dict_keys (dict_set k v d)).
      rewrite <- dict_get_None, dict_get_set.
      destruct (String.eqb_spec k' k); [congruence|]. by apply dict_get_None.
Qed.

Section fetch.
Context (client : NWSAPIClient)
        (session_get : string -> Z -> nat -> outcome Response)
        (county_codes : list string).

Lemma store_NoDup order acc :
  NoDup (dict_keys acc) ->
  NoDup (dict_keys
           (fold_left
              (store_result (map (fetch_county_alerts client session_get) county_codes))
              order acc)).
Proof.
  revert acc. induction order as [|i order IH]; intros acc Hnd; simpl; [done|].
  apply IH. unfold store_result.
  destruct (map _ county_codes !! i) as [[county data]|]; [|done].
  by apply dict_set_NoDup.
Qed.

Lemma store_get order acc (c : string) :
  dict_get c
    (fold_left
       (store_result (map (fetch_county_alerts client session_get) county_codes))
       order acc)
  = if existsb (fun i => bool_decide (county_codes !! i = Some c)) order
    then Some (snd (fetch_county_alerts client session_get c))
    else dict_get c acc.
Proof.
  revert acc. induction order as [|i order IH]; intros acc; simpl; [done|].
  rewrite IH. unfold store_result. rewrite lookup_map.
  destruct (existsb _ order); [by rewrite orb_true_r|]. rewrite orb_false_r.
  destruct (county_codes !! i) as [c'|] eqn:Hi; simpl.
  - destruct (fetch_county_alerts client session_get c') as [county data] eqn:Hf.
    pose proof (fetch_county_alerts_fst client session_get c') as Hfst.
    rewrite Hf in Hfst. simpl in Hfst. subst county.
    rewrite dict_get_set. case_bool_decide as Hc.
    + injection Hc as ->. by rewrite String.eqb_refl, Hf.
    + destruct (String.eqb_spec c c'); [congruence | done].
  - try case_bool_decide; done.
Qed.

Lemma completed_all order (c : string) :
  order ≡ₚ seq 0 (length county_codes) ->
  existsb (fun i => bool_decide (county_codes !! i = Some c)) order = true
  <-> c ∈ county_codes.
Proof.
  intros Hp. rewrite existsb_exists, list_elem_of_lookup. split.
  - intros (i & _ & Hi). apply bool_decide_eq_true in Hi. eauto.
  - intros (i & Hi). exists i. split; [|by apply bool_decide_eq_true].
    apply list_elem_of_In. rewrite Hp. apply list_elem_of_In, in_seq.
    apply lookup_lt_Some in Hi. lia.
Qed.
End fetch.

(** C9 (amended). For a non-empty list of county codes and a positive
    worker limit, whatever the order in which the requests complete,
    [fetch_alerts_for_counties] returns a mapping with exactly one entry
    per distinct county code; the entry of a county is the result of that
    county's own fetch, and it is the absent payload when the fetch
    raises (timeout, request error, error status, undecodable body). *)
Theorem fetch_alerts_for_counties_spec (client : NWSAPIClient)
    (session_get : string -> Z -> nat -> outcome Response)
    (completion_order : list nat) (county_codes : list string) :
  county_codes <> [] ->
  0 < max_workers client ->
  completion_order ≡ₚ seq 0 (length county_codes) ->
  exists alerts_data,
    fetch_alerts_for_counties client session_get completion_order county_codes
    = Returned alerts_data
    /\ NoDup (dict_keys alerts_data)
    /\ (forall c, c ∈ dict_keys alerts_data <-> c ∈ county_codes)
    /\ (forall c, c ∈ county_codes ->
          dict_get c alerts_data = Some (snd (fetch_county_alerts client session_get c)))
    /\ (forall c e, c ∈ county_codes ->
          request_alerts client session_get c = Raised e ->
          dict_get c alerts_data = Some None).
Proof.
  intros Hne Hw Hp. unfold fetch_alerts_for_counties.
  destruct (Z.leb_spec (Z.min (Z.of_nat (length county_codes)) (max_workers client)) 0)
    as [Hle|_].
  { destruct county_codes; [done|]. simpl length in Hle. lia. }
  eexists. split; [reflexivity|].
  assert (Hget : forall c, c ∈ county_codes ->
            dict_get c (fold_left
              (store_result (map (fetch_county_alerts client session_get) county_codes))
              completion_order [])
            = Some (snd (fetch_county_alerts client session_get c))).
  { intros c Hc. rewrite store_get.
    apply (completed_all county_codes completion_order c Hp) in Hc. by rewrite Hc. }
  split; [by apply store_NoDup, NoDup_nil|]. split; [|split].
  - intros c. split.
    + intros Hin. apply (completed_all county_codes completion_order c Hp).
      destruct (existsb _ completion_order) eqn:He; [done|]. exfalso.
      revert Hin. apply dict_get_None. by rewrite store_get, He.
    + intros Hc. destruct (decide (c ∈ dict_keys (fold_left
              (store_result (map (fetch_county_alerts client session_get) county_codes))
              completion_order []))) as [|Hn]; [done|].
      apply dict_get_None in Hn. rewrite Hget in Hn by done. discriminate.
  - exact Hget.
  - intros c e Hc He. rewrite Hget by done.
    unfold fetch_county_alerts. by rewrite He.
Qed.

(** ** The handlers *)

Lemma notify_alerts_frame (c : Collaborators) (alerts : Snapshot) (s : Sys) :
  exists new,
    state (snd (notify_alerts c alerts s)) = state s
    /\ state_manager (snd (notify_alerts c alerts s)) = state_manager s
    /\ data_file (snd (notify_alerts c alerts s)) = data_file s
    /\ calls (snd (notify_alerts c alerts s)) = (calls s ++ new)%list
    /\ alert_emitted new = false
    /\ all_clear_emitted new = false.
Proof.
  revert s. induction alerts as [|[alert_type alert_list] alerts IH]; intros s; simpl.
  - exists []. by rewrite app_nil_r.
  - destruct (py_max (map severity alert_list)) as [sev|e]; simpl.
    2:{ exists []. by rewrite app_nil_r. }
    destruct (notification_service_send_alert_notification c alert_type
                (map county_code alert_list) sev) as [b|e]; simpl.
    + destruct (IH (call (AlertNotification alert_type (map county_code alert_list) sev) s))
        as (new & Hst & Hsm & Hf & Hc & Ha & Hac).
      exists (AlertNotification alert_type (map county_code alert_list) sev :: new).
      rewrite Hst, Hsm, Hf, Hc. simpl. by rewrite <- app_assoc.
    + by exists [AlertNotification alert_type (map county_code alert_list) sev].
Qed.

(** What [_handle_active_alerts] does, for collaborators that return. *)
Lemma handle_active_alerts_spec (c : Collaborators) (cfg : AppConfig)
    (alerts : Snapshot) (changes : Changes) (s : Sys) :
  is_returned (alert_announcer_say_alerts c alerts (max_alerts cfg)) = true ->
  let s' := _handle_active_alerts c cfg alerts changes s in
  exists new,
    calls s' = (calls s ++ new)%list
    /\ state_manager s' = state_manager s
    /\ data_file s' = data_file s
    /\ all_clear_emitted new = false
    /\ (alert_emitted new = true <->
        say_alert cfg = true
        /\ (truthy (state_get "last_sayalert" (state s)) = false
            \/ changes_detected changes <> []))
    /\ (alert_emitted new = true ->
        state s' = dict_set "last_sayalert" (snapshot_val alerts) (state s))
    /\ (alert_emitted new = false -> state s' = state s).
Proof.
  intros Hret s'. subst s'. unfold _handle_active_alerts, active_alerts_body.
  destruct (say_alert cfg && _)%bool eqn:Hann.
  - destruct (alert_announcer_say_alerts c alerts (max_alerts cfg)) as [b|e]; [|done].
    destruct (notify_alerts_frame c alerts
                (set_state "last_sayalert" (snapshot_val alerts)
                   (call (SayAlerts alerts (max_alerts cfg)) s)))
      as (new & Hst & Hsm & Hf & Hc & Ha & Hac).
    exists (SayAlerts alerts (max_alerts cfg) :: new).
    rewrite Hst, Hsm, Hf, Hc. simpl. rewrite <- app_assoc.
    repeat split; try done.
    + apply andb_true_iff in Hann. tauto.
    + apply andb_true_iff in Hann as [_ Hor].
      apply orb_true_iff in Hor as [Hchg|Hprior].
      * right. intros Heq. by rewrite Heq in Hchg.
      * left. by apply negb_true_iff.
  - destruct (notify_alerts_frame c alerts s) as (new & Hst & Hsm & Hf & Hc & Ha & Hac).
    exists new. rewrite Hst, Hsm, Hf, Hc, Ha.
    repeat split; try done.
    intros [Hsay [Hno|Hch]]; rewrite Hsay in Hann; simpl in Hann.
    + rewrite Hno in Hann. by rewrite orb_true_r in Hann.
    + destruct (changes_detected changes); [done | discriminate].
Qed.

(** Whatever the collaborators do, [_handle_active_alerts] leaves the
    state manager and the file alone, and only [last_sayalert] can
    change. *)
Lemma handle_active_alerts_frame (c : Collaborators) (cfg : AppConfig)
    (alerts : Snapshot) (changes : Changes) (s : Sys) :
  let s' := _handle_active_alerts c cfg alerts changes s in
  state_manager s' = state_manager s
  /\ data_file s' = data_file s
  /\ (state s' = state s
      \/ state s' = dict_set "last_sayalert" (snapshot_val alerts) (state s)).
Proof.
  intros s'. subst s'. unfold _handle_active_alerts, active_alerts_body.
  destruct (say_alert cfg && _)%bool.
  - destruct (alert_announcer_say_alerts c alerts (max_alerts cfg)) as [b|e]; simpl.
    + destruct (notify_alerts_frame c alerts
                  (set_state "last_sayalert" (snapshot_val alerts)
                     (call (SayAlerts alerts (max_alerts cfg)) s)))
        as (new & -> & -> & -> & _). simpl. auto.
    + auto.
  - destruct (notify_alerts_frame c alerts s) as (new & -> & -> & -> & _). auto.
Qed.

(** What [_handle_all_clear] does, whatever the collaborators do: the
    announcement is made exactly when the previous snapshot is non-empty
    and SayAllClear is enabled, and only [last_allclear] can change. *)
Lemma handle_all_clear_spec (c : Collaborators) (cfg : AppConfig)
    (old_alerts : pyval) (s : Sys) :
  let s' := _handle_all_clear c cfg old_alerts s in
  exists new,
    calls s' = (calls s ++ new)%list
    /\ state_manager s' = state_manager s
    /\ data_file s' = data_file s
    /\ alert_emitted new = false
    /\ (all_clear_emitted new = true <->
        say_all_clear cfg = true /\ truthy old_alerts = true)
    /\ (state s' = state s
        \/ state s' = dict_set "last_allclear" (VDict []) (state s)).
Proof.
  intros s'. subst s'. unfold _handle_all_clear, all_clear_body.
  destruct (truthy old_alerts && say_all_clear cfg)%bool eqn:Hcond.
  - apply andb_true_iff in Hcond as [Hold Hsay].
    destruct (alert_announcer_say_all_clear c) as [b|e]; simpl.
    2:{ exists [SayAllClear]. simpl. repeat split; auto. }
    destruct (old_counties old_alerts) as [counties|e]; simpl.
    2:{ exists [SayAllClear]. simpl. repeat split; auto. }
    destruct (notification_service_send_all_clear_notification c counties) as [b'|e]; simpl.
    + exists [SayAllClear; AllClearNotification counties].
      rewrite <- app_assoc. simpl. repeat split; auto.
    + exists [SayAllClear; AllClearNotification counties].
      rewrite <- app_assoc. simpl. repeat split; auto.
  - exists []. simpl. rewrite app_nil_r. repeat split; auto; try done.
    intros [Hsay Hold]. by rewrite Hsay, Hold in Hcond.
Qed.

Lemma dict_get_set_ne {V} (k k' : string) (v : V) (d : pydict V) :
  String.eqb k k' = false -> dict_get k (dict_set k' v d) = dict_get k d.
Proof. intros H. by rewrite dict_get_set, H. Qed.

Lemma dict_get_set_eq {V} (k : string) (v : V) (d : pydict V) :
  dict_get k (dict_set k v d) = Some v.
Proof. by rewrite dict_get_set, String.eqb_refl. Qed.

Lemma cleanup_frame (env : Env) (s : Sys) :
  state (cleanup env s) = state s
  /\ calls (cleanup env s) = calls s
  /\ _state_cache (state_manager (cleanup env s)) = _state_cache (state_manager s).
Proof.
  unfold cleanup, flush_state.
  destruct (negb (_state_dirty (state_manager s))); [done|].
  destruct (negb (open_temp (disk env))); [done|].
  by destruct (json_serialisable _ && _)%bool.
Qed.

(** ** The cycle *)

(** [run], once the snapshot is built and the change detector has
    returned. *)
Lemma run_reaches_handlers (env : Env) (cfg : Config) (s : Sys)
    (sorted_alerts : Snapshot) (changes : Changes) :
  enabled (app_config cfg) = true ->
  county_configs cfg <> [] ->
  current_snapshot env cfg = Returned sorted_alerts ->
  detect_county_changes (default (VDict []) (dict_get "last_alerts" (state s)))
    (snapshot_items sorted_alerts) = Returned changes ->
  let old_alerts := default (VDict []) (dict_get "last_alerts" (state s)) in
  let handled :=
    if negb (is_empty sorted_alerts)
    then _handle_active_alerts (collaborators env) (app_config cfg) sorted_alerts changes s
    else _handle_all_clear (collaborators env) (app_config cfg) old_alerts s in
  let saved :=
    {| state := dict_set "last_alerts" (snapshot_val sorted_alerts) (state handled);
       state_manager :=
         save_state (dict_set "last_alerts" (snapshot_val sorted_alerts) (state handled))
           (state_manager handled);
       data_file := data_file handled;
       calls := calls handled |} in
  run env cfg s = (Returned tt, cleanup env saved).
Proof.
  intros Hen Hcc Hsnap Hdet. simpl. unfold run, run_body.
  rewrite Hen. simpl. destruct (county_configs cfg) as [|c0 l] eqn:Hc; [done|]. simpl.
  rewrite Hsnap, Hdet. reflexivity.
Qed.

Lemma state_for_json_snapshot (k : string) (sorted_alerts : Snapshot) (st : list (string * pyval)) :
  dict_get k st = Some (snapshot_val sorted_alerts) ->
  dict_get k (state_for_json st) = Some (snapshot_val sorted_alerts).
Proof.
  unfold state_for_json. induction st as [|[k' v] st IH]; simpl; [done|].
  destruct (String.eqb k k'); [|exact IH].
  intros [= ->]. unfold snapshot_val. f_equal. f_equal.
  rewrite map_map. apply map_ext. by intros [??].
Qed.

(** Whatever the announcer and the notification service do, raising
    included, a cycle that reaches the handlers returns normally from
    [run]; [last_alerts] is then the current sorted snapshot in memory,
    and the state manager's cache holds the saved state, with that
    snapshot under [last_alerts].  Whether the snapshot reaches the state
    file is another matter. *)
Lemma handlers_contain_failures (env : Env) (cfg : Config) (s : Sys)
    (sorted_alerts : Snapshot) (changes : Changes) :
  enabled (app_config cfg) = true ->
  county_configs cfg <> [] ->
  current_snapshot env cfg = Returned sorted_alerts ->
  detect_county_changes (default (VDict []) (dict_get "last_alerts" (state s)))
    (snapshot_items sorted_alerts) = Returned changes ->
  exists s',
    run env cfg s = (Returned tt, s')
    /\ dict_get "last_alerts" (state s') = Some (snapshot_val sorted_alerts)
    /\ _state_cache (state_manager s') = state_for_json (state s')
    /\ dict_get "last_alerts" (_state_cache (state_manager s'))
       = Some (snapshot_val sorted_alerts).
Proof.
  intros Hen Hcc Hsnap Hdet.
  rewrite (run_reaches_handlers env cfg s sorted_alerts changes Hen Hcc Hsnap Hdet).
  eexists. split; [reflexivity|].
  match goal with |- context [cleanup env ?x] =>
    destruct (cleanup_frame env x) as (Hst & _ & Hcache) end.
  rewrite Hst, Hcache. simpl.
  split; [apply dict_get_set_eq|]. split; [reflexivity|].
  apply state_for_json_snapshot, dict_get_set_eq.
Qed.

(** ** The state store *)

Lemma flush_failed_raises (temp : bool) (disk : Disk) :
  is_returned (flush_failed temp disk) = false.
Proof. unfold flush_failed. destruct temp; [|done]. by destruct (unlink_temp disk). Qed.

Lemma flush_state_raises (disk : Disk) (sm : StateManager) (file : file_content) :
  is_returned (fst (fst (flush_state disk sm file))) = false <->
  _state_dirty sm = true
  /\ (writable disk = false \/ json_serialisable (VDict (_state_cache sm)) = false).
Proof.
  unfold flush_state, writable.
  destruct (_state_dirty sm); cbn [negb]; [|cbn; intuition congruence].
  destruct (open_temp disk); cbn [negb andb fst].
  - destruct (json_serialisable (VDict (_state_cache sm))); cbn [andb fst].
    + destruct (write_replace disk); cbn [fst is_returned];
        [intuition congruence|].
      rewrite flush_failed_raises. intuition congruence.
    + rewrite flush_failed_raises. intuition congruence.
  - rewrite flush_failed_raises. intuition congruence.
Qed.

Lemma flush_state_raised_frame (disk : Disk) (sm sm' : StateManager)
    (file file' : file_content) (e : exn) :
  flush_state disk sm file = (Raised e, sm', file') ->
  sm' = sm /\ file' = file.
Proof.
  unfold flush_state. destruct (negb (_state_dirty sm)); [done|].
  destruct (negb (open_temp disk)); [by intros [= _ <- <-]|].
  destruct (json_serialisable _ && _)%bool; [done|]. by intros [= _ <- <-].
Qed.

(** C4 (amended). When [flush_state] raises, [cleanup] catches and logs
    the failure: nothing propagates to the caller of [run], which returns
    or raises exactly what the body of the cycle did; the state file
    keeps its content and the cache stays as it was. *)
Theorem flush_failure_is_logged (env : Env) (cfg : Config) (s s1 : Sys)
    (r : outcome unit) (e : exn) (sm : StateManager) (file : file_content) :
  enabled (app_config cfg) = true ->
  run_body env cfg s = (r, s1) ->
  flush_state (disk env) (state_manager s1) (data_file s1) = (Raised e, sm, file) ->
  run env cfg s = (r, s1) /\ cleanup env s1 = s1.
Proof.
  intros Hen Hbody Hflush.
  assert (Hc : cleanup env s1 = s1).
  { unfold cleanup. rewrite Hflush.
    apply flush_state_raised_frame in Hflush as (-> & ->). by destruct s1. }
  split; [|exact Hc]. unfold run. by rewrite Hen, Hbody, Hc.
Qed.

Lemma set_to_list_json (v : pyval) :
  json_serialisable v = true -> set_to_list v = v.
Proof. by destruct v. Qed.

Lemma state_for_json_id (st : list (string * pyval)) :
  json_serialisable (VDict st) = true -> state_for_json st = st.
Proof.
  unfold state_for_json. simpl. induction st as [|[k v] st IH]; simpl; [done|].
  intros [Hv Hst]%andb_true_iff. rewrite (IH Hst). f_equal. f_equal.
  destruct v as [| | | | |d| |]; try done. f_equal.
  simpl in Hv. clear -Hv. induction d as [|[k' v'] d IHd]; simpl; [done|].
  simpl in Hv. apply andb_true_iff in Hv as [Hv' Hd].
  by rewrite (set_to_list_json v' Hv'), (IHd Hd).
Qed.

(** A state made of JSON values, saved and flushed to a writable file,
    is read back unchanged. *)
Lemma save_flush_load (st : list (string * pyval)) (sm : StateManager)
    (file : file_content) :
  json_serialisable (VDict st) = true ->
  exists sm' file',
    flush_state writable_disk (save_state st sm) file = (Returned tt, sm', file')
    /\ exists sm'', load_state file' = Returned (st, sm'').
Proof.
  intros Hj. unfold flush_state, save_state.
  cbn [_state_dirty _state_cache negb open_temp write_replace writable_disk].
  rewrite (state_for_json_id st Hj), Hj. cbn. eauto.
Qed.

(** A snapshot that holds a record is not JSON: [json.dump] rejects the
    [AlertData] instance. *)
Lemma snapshot_not_serialisable (k : string) (a : AlertData) (l : list AlertData)
    (rest : list (string * list AlertData)) :
  json_serialisable (snapshot_val ((k, a :: l) :: rest)) = false.
Proof. reflexivity. Qed.

(** [_handle_all_clear] never touches [last_sayalert]. *)
Lemma handle_all_clear_keeps_last_sayalert (c : Collaborators) (cfg : AppConfig)
    (old_alerts : pyval) (s : Sys) :
  dict_get "last_sayalert" (state (_handle_all_clear c cfg old_alerts s))
  = dict_get "last_sayalert" (state s).
Proof.
  destruct (handle_all_clear_spec c cfg old_alerts s) as (new & _ & _ & _ & _ & _ & [->| ->]);
    [done|]. by apply dict_get_set_ne.
Qed.

(** ** The snapshot of a cycle is always built *)

Lemma dict_set_Forall {V} (Q : V -> Prop) (k : string) (v : V) (d : pydict V) :
  Q v -> Forall (fun kv => Q (snd kv)) d ->
  Forall (fun kv => Q (snd kv)) (dict_set k v d).
Proof.
  intros Hv. induction 1 as [|[k' v'] d Hk Hd IH]; simpl.
  - by repeat constructor.
  - destruct (String.eqb k k'); constructor; done.
Qed.

Lemma add_alert_well_grouped (d : list (string * list AlertData)) (a : AlertData) :
  well_grouped d -> well_grouped (add_alert d a).
Proof.
  intros [Hnd Hne]. unfold add_alert.
  destruct (dict_get (event a) d) as [l|]; split;
    try (by apply dict_set_NoDup);
    apply (dict_set_Forall (fun l => l <> [])); try done.
  by destruct l.
Qed.

Lemma collect_alerts_well_grouped dateutil_parse
    (alerts_data : list (string * option (list (list (string * string))))) :
  well_grouped (collect_alerts dateutil_parse alerts_data).
Proof.
  unfold collect_alerts.
  assert (Hinit : well_grouped []) by (split; constructor).
  revert Hinit. generalize (@nil (string * list AlertData)).
  induction alerts_data as [|[county data] rest IH]; intros acc Hacc; simpl; [done|].
  apply IH. destruct data as [features|]; [|done]. simpl.
  generalize (parse_alert_data dateutil_parse features county). intros alerts.
  revert acc Hacc. induction alerts as [|a alerts IHa]; intros acc Hacc; simpl; [done|].
  apply IHa. by apply add_alert_well_grouped.
Qed.

(** A zone without payload contributes no record. *)
Lemma failed_zone_contributes_nothing dateutil_parse
    (alerts_data : list (string * option (list (list (string * string))))) :
  collect_alerts dateutil_parse alerts_data
  = collect_alerts dateutil_parse
      (List.filter (fun item => bool_decide (is_Some (snd item))) alerts_data).
Proof.
  unfold collect_alerts. generalize (@nil (string * list AlertData)).
  induction alerts_data as [|[county [features|]] rest IH]; intros acc; simpl; [done| |];
    apply IH.
Qed.

Lemma filter_well_grouped (f : string * list AlertData -> bool)
    (d : list (string * list AlertData)) :
  well_grouped d -> well_grouped (List.filter f d).
Proof.
  intros [Hnd Hne]. split.
  - unfold dict_keys in *. induction d as [|kv d IH]; simpl; [done|].
    simpl in Hnd. apply NoDup_cons in Hnd as [Hk Hnd].
    inversion Hne; subst.
    destruct (f kv); simpl; [|auto].
    apply NoDup_cons. split; [|auto].
    intros Hin. apply Hk. apply list_elem_of_In in Hin. apply list_elem_of_In.
    apply in_map_iff in Hin as (x & Hx & Hin). apply filter_In in Hin as [Hin _].
    apply in_map_iff. eauto.
  - rewrite Forall_forall in *. intros x Hx. apply Hne.
    apply list_elem_of_In in Hx. apply filter_In in Hx as [Hx _].
    by apply list_elem_of_In.
Qed.

(** With at least one configured zone and a positive worker limit, the
    fetch, the parsing, the filter and the sort all return: no zone
    failure aborts the cycle. *)
Lemma current_snapshot_returns (env : Env) (cfg : Config) :
  county_configs cfg <> [] ->
  0 < max_workers (api_client cfg) ->
  exists sorted_alerts, current_snapshot env cfg = Returned sorted_alerts.
Proof.
  intros Hne Hw. unfold current_snapshot, fetch_alerts_for_counties.
  destruct (Z.leb_spec (Z.min (Z.of_nat (length (county_configs cfg)))
                          (max_workers (api_client cfg))) 0) as [Hle|_].
  { destruct (county_configs cfg); [done|]. simpl length in Hle. lia. }
  simpl.
  match goal with |- context [sort_alerts_by_severity ?d] =>
    assert (Hwg : well_grouped d) end.
  { apply filter_well_grouped, collect_alerts_well_grouped. }
  destruct Hwg as [Hnd Hfa].
  rewrite sort_alerts_by_severity_eq by done. eauto.
Qed.

(** ** Concrete cycles *)

Lemma tornado_cycle_snapshot :
  current_snapshot tornado_env two_zones = Returned tornado_snapshot.
Proof. reflexivity. Qed.

(** C1, the failing cycle: SayAlert is enabled and [Tornado Warning] is
    new relative to the prior say-alert snapshot (which holds
    [Flood Watch] only), yet the cycle announces nothing: the handler
    announces only when the detector reports a change or [last_sayalert]
    is empty, and the detector skips the types that are not in the
    previous snapshot. *)
Lemma new_alert_type_not_announced :
  say_alert (app_config two_zones) = true
  /\ current_snapshot tornado_env two_zones = Returned tornado_snapshot
  /\ dict_get "last_sayalert" flood_watch_state = Some flood_watch_stored
  /\ py_contains flood_watch_stored "Tornado Warning" = Returned false
  /\ alert_emitted (snd (fst (main tornado_env two_zones (Doc flood_watch_state)))) = false.
Proof. repeat split; reflexivity. Qed.

(** C2, the failing cycles: from a missing state file, a cycle with a
    tornado warning is followed by a cycle with an empty feed; the first
    cycle leaves no state file, so the second one reads an empty
    previous snapshot and announces no all-clear on the transition. *)
Theorem transition_without_all_clear :
  let first := main tornado_env two_zones Missing in
  let second := main clear_env two_zones (snd first) in
  say_all_clear (app_config two_zones) = true
  /\ current_snapshot tornado_env two_zones = Returned tornado_snapshot
  /\ current_snapshot clear_env two_zones = Returned []
  /\ snd first = Missing
  /\ fst (fst second) = Returned tt
  /\ all_clear_emitted (snd (fst second)) = false.
Proof. repeat split; reflexivity. Qed.

(** When the previous snapshot was stored (as dictionaries) and the feed
    is now empty, the all-clear is announced and the state is written,
    with [last_sayalert] still holding the tornado warning. *)
Example all_clear_keeps_last_sayalert :
  main clear_env two_zones (Doc tornado_state)
  = (Returned tt,
     [SayAllClear; AllClearNotification [VStr "A"]],
     Doc [("last_alerts", VDict []); ("last_sayalert", tornado_stored);
          ("last_tailmessage", VDict []); ("last_allclear", VDict []);
          ("last_alert_script", VDict [])]).
Proof. reflexivity. Qed.

(** After that all-clear a new tornado warning is not announced. *)
Example alert_after_all_clear_not_announced :
  alert_emitted
    (snd (fst (main tornado_env two_zones
                 (snd (main clear_env two_zones (Doc tornado_state))))))
  = false.
Proof. reflexivity. Qed.

(** On the snapshots [run] passes, the detector raises as soon as an
    alert type is in both: the current records are [AlertData]
    instances, which cannot be subscripted. *)
Example detect_raises_on_instances :
  detect_county_changes tornado_stored (snapshot_items tornado_snapshot)
  = Raised TypeError.
Proof. reflexivity. Qed.

(** Calling [run] twice on the same object: the second call raises. *)
Example second_run_in_process_raises :
  fst (run tornado_env two_zones
         (snd (run tornado_env two_zones (fresh empty_state Missing))))
  = Raised TypeError.
Proof. reflexivity. Qed.

(** C3, the failing cycles: from a missing state file, two consecutive
    cycles with the same feed both announce the alert; the first cycle
    leaves no state file behind. *)
Theorem identical_feed_announced_twice :
  let first := main tornado_env two_zones Missing in
  let second := main tornado_env two_zones (snd first) in
  snd first = Missing
  /\ alert_emitted (snd (fst first)) = true
  /\ alert_emitted (snd (fst second)) = true.
Proof. repeat split; reflexivity. Qed.

(** C4, counterexample: the state file cannot be written, [flush_state]
    raises, and [run] returns normally. *)
Lemma flush_failure_not_propagated :
  exists s1,
    run_body readonly_env two_zones (fresh tornado_state (Doc tornado_state))
    = (Returned tt, s1)
    /\ fst (fst (flush_state (disk readonly_env) (state_manager s1) (data_file s1)))
       = Raised FileIOError
    /\ fst (run readonly_env two_zones (fresh tornado_state (Doc tornado_state)))
       = Returned tt
    /\ fst (fst (main readonly_env two_zones (Doc tornado_state))) = Returned tt.
Proof. eexists. repeat split; reflexivity. Qed.

Lemma flush_failure_is_logged_witness :
  exists s1,
    run readonly_env two_zones (fresh tornado_state (Doc tornado_state))
    = (Returned tt, s1)
    /\ cleanup readonly_env s1 = s1.
Proof.
  eexists.
  eapply (flush_failure_is_logged readonly_env two_zones
            (fresh tornado_state (Doc tornado_state)));
    [reflexivity | reflexivity | reflexivity].
Defined.

(** C5, the failing cycle: the outgoing snapshot is stored under
    [last_alerts] in memory and in the cache, [flush_state] raises on it,
    the file stays missing, and the next load reads an empty
    [last_alerts]. *)
Theorem outgoing_snapshot_not_read_back :
  exists s1,
    run tornado_env two_zones (fresh empty_state Missing) = (Returned tt, s1)
    /\ dict_get "last_alerts" (state s1) = Some (snapshot_val tornado_snapshot)
    /\ dict_get "last_alerts" (_state_cache (state_manager s1))
       = Some (snapshot_val tornado_snapshot)
    /\ fst (fst (flush_state writable_disk (state_manager s1) (data_file s1))) = Raised FileIOError
    /\ snd (main tornado_env two_zones Missing) = Missing
    /\ fst <$> (match load_state (snd (main tornado_env two_zones Missing)) with
                | Returned x => Some x | Raised _ => None end)
       = Some empty_state.
Proof. eexists. repeat split; reflexivity. Qed.

Lemma sort_alerts_by_severity_spec_witness :
  exists sorted_alerts,
    sort_alerts_by_severity three_types = Returned sorted_alerts
    /\ sorted_alerts ≡ₚ three_types
    /\ (forall k, dict_get k sorted_alerts = dict_get k three_types)
    /\ StronglySorted
         (fun a b => max_severity (snd b) <= max_severity (snd a)) sorted_alerts
    /\ (forall v,
          List.filter (fun kv => Z.eqb (max_severity (snd kv)) v) sorted_alerts
          = List.filter (fun kv => Z.eqb (max_severity (snd kv)) v) three_types).
Proof.
  apply (sort_alerts_by_severity_spec three_types).
  - apply (bool_decide_unpack _). vm_compute. exact I.
  - repeat constructor; discriminate.
Defined.

Example sort_three_types :
  dict_keys <$> (match sort_alerts_by_severity three_types with
                 | Returned x => Some x | Raised _ => None end)
  = Some ["Tornado Warning"; "Flood Advisory"; "Wind Advisory"].
Proof. reflexivity. Qed.

Example detect_example :
  (fun ch => dict_keys (changes_detected ch))
    <$> (match detect_county_changes (VDict previous_example) current_example with
         | Returned x => Some x | Raised _ => None end)
  = Some ["Flood Watch"].
Proof. vm_compute. reflexivity. Qed.

(** C8, the failing input: the state file holds a tornado warning for
    zone A and the cycle finds it in zones A and B.  The claim has the
    detector report [Tornado Warning] as changed, with zone B added, and
    on dictionary records it does; on the records [run] passes it raises
    TypeError instead (an [AlertData] instance is subscripted), the
    cycle ends with that exception and nothing is announced. *)
Theorem coverage_change_raises :
  current_snapshot tornado_both_env two_zones = Returned tornado_both_snapshot
  /\ dict_get "last_alerts" tornado_state = Some tornado_stored
  /\ detect_county_changes tornado_stored (snapshot_items tornado_both_snapshot)
     = Raised TypeError
  /\ main tornado_both_env two_zones (Doc tornado_state)
     = (Raised TypeError, [], Doc tornado_state)
  /\ (fun ch => dict_keys (changes_detected ch))
       <$> (match detect_county_changes tornado_stored
                    [("Tornado Warning", VList [stored_record "A"; stored_record "B"])] with
            | Returned x => Some x | Raised _ => None end)
     = Some ["Tornado Warning"].
Proof. repeat split; vm_compute; reflexivity. Qed.

(** C9, counterexample: on the empty list the worker pool is created
    with no worker, which raises. *)
Lemma fetch_empty_list_raises :
  fetch_alerts_for_counties default_client tornado_feed [] [] = Raised ValueError.
Proof. reflexivity. Qed.

Lemma fetch_alerts_for_counties_spec_witness :
  exists alerts_data,
    fetch_alerts_for_counties default_client tornado_feed [1%nat; 0%nat] ["A"; "B"]
    = Returned alerts_data
    /\ NoDup (dict_keys alerts_data)
    /\ (forall c, c ∈ dict_keys alerts_data <-> c ∈ ["A"; "B"])
    /\ (forall c, c ∈ ["A"; "B"] ->
          dict_get c alerts_data
          = Some (snd (fetch_county_alerts default_client tornado_feed c)))
    /\ (forall c e, c ∈ ["A"; "B"] ->
          request_alerts default_client tornado_feed c = Raised e ->
          dict_get c alerts_data = Some None).
Proof.
  apply (fetch_alerts_for_counties_spec default_client tornado_feed
           [1%nat; 0%nat] ["A"; "B"]).
  - discriminate.
  - reflexivity.
  - simpl. apply Permutation_swap.
Defined.


Example failing_collaborators_cycle :
  fst (fst (main failing_env two_zones Missing)) = Returned tt
  /\ snd (fst (main failing_env two_zones Missing))
     = [SayAlerts tornado_snapshot 99].
Proof. split; reflexivity. Qed.

(** * Further properties *)

(** ** Filtering *)

Lemma value_range (sev : AlertSeverity) : 0 <= value sev <= 4.
Proof. destruct sev; simpl; lia. Qed.

(** X1. [filter_blocked_alerts] drops every alert type that matches a
    blocked pattern and keeps the binding of every other type; the
    surviving bindings stay in their input order. *)
Theorem filter_blocked_alerts_spec (fnmatch : string -> string -> bool)
    (alerts : list (string * list AlertData)) (blocked_events : list string) :
  (forall t,
     dict_get t (filter_blocked_alerts fnmatch alerts blocked_events)
     = if existsb (fnmatch t) blocked_events then None else dict_get t alerts)
  /\ sublist (filter_blocked_alerts fnmatch alerts blocked_events) alerts.
Proof.
  unfold filter_blocked_alerts. split.
  - intros t. induction alerts as [|[k v] alerts IH]; simpl.
    + by destruct (existsb _ _).
    + destruct (String.eqb_spec t k) as [->|Hne].
      * destruct (existsb (fnmatch k) blocked_events) eqn:Hb; simpl.
        -- rewrite IH. by rewrite ?Hb.
        -- by rewrite String.eqb_refl.
      * destruct (existsb (fnmatch k) blocked_events); simpl; [exact IH|].
        destruct (String.eqb_spec t k); [done | exact IH].
  - induction alerts as [|[k v] alerts IH]; simpl; [constructor|].
    destruct (existsb (fnmatch k) blocked_events); simpl; by constructor.
Qed.

(** ** The grouping loop of [run] *)

Lemma add_alert_get (d : list (string * list AlertData)) (a0 : AlertData) (k : string) :
  dict_get k (add_alert d a0)
  = if String.eqb k (event a0)
    then Some (default [] (dict_get (event a0) d) ++ [a0])%list
    else dict_get k d.
Proof.
  unfold add_alert. destruct (dict_get (event a0) d) as [l|]; by rewrite dict_get_set.
Qed.

Lemma fold_add_alert_sound (Q : AlertData -> Prop) (alerts : list AlertData)
    (acc : list (string * list AlertData)) :
  (forall k l a, dict_get k acc = Some l -> a ∈ l -> event a = k /\ Q a) ->
  (forall a, a ∈ alerts -> Q a) ->
  forall k l a, dict_get k (fold_left add_alert alerts acc) = Some l -> a ∈ l ->
    event a = k /\ Q a.
Proof.
  revert acc. induction alerts as [|a0 alerts IH]; intros acc Hacc Hq; simpl; [done|].
  apply IH; [|intros a Ha; apply Hq; by right].
  intros k l a. rewrite add_alert_get.
  destruct (String.eqb_spec k (event a0)) as [->|Hne]; [|apply Hacc].
  intros [= <-] [Ha|Ha]%elem_of_app.
  - destruct (dict_get (event a0) acc) as [l0|] eqn:Hl0; simpl in Ha.
    + by apply (Hacc _ l0).
    + by apply elem_of_nil in Ha.
  - apply list_elem_of_singleton in Ha as ->. split; [done|]. apply Hq. left.
Qed.

Lemma fold_add_alert_complete (alerts : list AlertData)
    (acc : list (string * list AlertData)) (a : AlertData) :
  (exists l, dict_get (event a) acc = Some l /\ a ∈ l) \/ a ∈ alerts ->
  exists l, dict_get (event a) (fold_left add_alert alerts acc) = Some l /\ a ∈ l.
Proof.
  revert acc. induction alerts as [|a0 alerts IH]; intros acc H; simpl.
  - destruct H as [H|H]; [done | by apply elem_of_nil in H].
  - apply IH. rewrite add_alert_get.
    destruct H as [(l & Hl & Ha)|[->|Ha]%elem_of_cons].
    + left. destruct (String.eqb_spec (event a) (event a0)) as [He|Hne].
      * eexists. split; [done|]. rewrite <- He, Hl. simpl. apply elem_of_app. by left.
      * eauto.
    + left. rewrite String.eqb_refl. eexists. split; [done|].
      apply elem_of_app. right. left.
    + by right.
Qed.

Lemma collect_alerts_sound (dateutil_parse : string -> option string)
    (alerts_data : list (string * option (list (list (string * string)))))
    (k : string) (l : list AlertData) (a : AlertData) :
  dict_get k (collect_alerts dateutil_parse alerts_data) = Some l -> a ∈ l ->
  event a = k /\ from_feed dateutil_parse alerts_data a.
Proof.
  unfold collect_alerts. revert k l a.
  assert (Hgen : forall rest acc,
    (forall item, item ∈ rest -> item ∈ alerts_data) ->
    (forall k l a, dict_get k acc = Some l -> a ∈ l ->
       event a = k /\ from_feed dateutil_parse alerts_data a) ->
    forall k l a,
      dict_get k
        (fold_left
           (fun all_alerts item =>
              match snd item with
              | Some features =>
                  fold_left add_alert
                    (parse_alert_data dateutil_parse features (fst item)) all_alerts
              | None => all_alerts
              end) rest acc) = Some l -> a ∈ l ->
      event a = k /\ from_feed dateutil_parse alerts_data a).
  { induction rest as [|[county data] rest IH]; intros acc Hsub Hacc; simpl; [done|].
    apply IH; [intros item Hi; apply Hsub; by right|].
    destruct data as [features|]; [|done]. simpl.
    apply fold_add_alert_sound; [done|].
    intros a Ha. unfold parse_alert_data in Ha.
    apply list_elem_of_In, in_map_iff in Ha as (props & <- & Hp).
    exists county, features, props. split; [apply Hsub; left|].
    split; [by apply list_elem_of_In | done]. }
  apply Hgen; [done|]. intros k l a Hk. discriminate.
Qed.

Lemma collect_alerts_complete (dateutil_parse : string -> option string)
    (alerts_data : list (string * option (list (list (string * string)))))
    (a : AlertData) :
  from_feed dateutil_parse alerts_data a ->
  exists l,
    dict_get (event a) (collect_alerts dateutil_parse alerts_data) = Some l /\ a ∈ l.
Proof.
  unfold collect_alerts. revert a.
  intros a (county & features & props & Hin & Hp & Ha).
  assert (Hgen : forall rest acc,
    (exists l, dict_get (event a) acc = Some l /\ a ∈ l)
    \/ (county, Some features) ∈ rest ->
    exists l,
      dict_get (event a)
        (fold_left
           (fun all_alerts item =>
              match snd item with
              | Some features =>
                  fold_left add_alert
                    (parse_alert_data dateutil_parse features (fst item)) all_alerts
              | None => all_alerts
              end) rest acc) = Some l
      /\ a ∈ l).
  { induction rest as [|[county' data'] rest IH]; intros acc H; simpl.
    - destruct H as [H|H]; [done | by apply elem_of_nil in H].
    - apply IH. destruct H as [H|[[= <- <-]|H]%elem_of_cons].
      + left. destruct data' as [features'|]; [|done]. simpl.
        apply fold_add_alert_complete. by left.
      + left. simpl. apply fold_add_alert_complete. right. rewrite Ha.
        unfold parse_alert_data. apply list_elem_of_In, in_map, list_elem_of_In, Hp.
      + by right. }
  apply Hgen. by right.
Qed.

(** X4. The grouping loop of [run] files every parsed record under its
    own event name and invents none: the snapshot it builds holds
    exactly the records parsed from the features of the zones whose
    fetch returned a payload. *)
Theorem collect_alerts_exact (dateutil_parse : string -> option string)
    (alerts_data : list (string * option (list (list (string * string))))) :
  (forall k l a,
     dict_get k (collect_alerts dateutil_parse alerts_data) = Some l -> a ∈ l ->
     event a = k /\ from_feed dateutil_parse alerts_data a)
  /\ (forall a,
        from_feed dateutil_parse alerts_data a ->
        exists l,
          dict_get (event a) (collect_alerts dateutil_parse alerts_data) = Some l
          /\ a ∈ l).
Proof.
  split.
  - intros k l a. apply collect_alerts_sound.
  - intros a. apply collect_alerts_complete.
Qed.

(** ** The snapshot of a cycle *)

Lemma parse_feature_range dateutil_parse (county : string)
    (properties : list (string * string)) :
  county_code (parse_feature dateutil_parse county properties) = county
  /\ 0 <= severity (parse_feature dateutil_parse county properties) <= 4.
Proof.
  split; [done|]. simpl. unfold _determine_severity.
  destruct (dict_get "severity" properties ≫= _) as [sev|]; [apply value_range|].
  destruct (first_word _ _) as [sev|]; [apply value_range | lia].
Qed.

Lemma fetched_keys_configured (client : NWSAPIClient)
    (session_get : string -> Z -> nat -> outcome Response)
    (order : list nat) (county_codes : list string) (c : string) :
  c ∈ dict_keys
        (fold_left
           (store_result (map (fetch_county_alerts client session_get) county_codes))
           order []) ->
  c ∈ county_codes.
Proof.
  intros Hin.
  destruct (existsb (fun i => bool_decide (county_codes !! i = Some c)) order) eqn:He.
  - apply existsb_exists in He as (i & _ & Hi). apply bool_decide_eq_true in Hi.
    by eapply list_elem_of_lookup_2.
  - exfalso. revert Hin. apply dict_get_None. by rewrite store_get, He.
Qed.

Lemma current_snapshot_eq (env : Env) (cfg : Config) (S : list (string * list AlertData)) :
  current_snapshot env cfg = Returned S ->
  exists alerts_data,
    fetch_alerts_for_counties (api_client cfg) (session_get env)
      (completion_order env) (county_configs cfg) = Returned alerts_data
    /\ S = sort_reverse (fun kv => max_severity (snd kv))
             (filter_blocked_alerts (fnmatch env)
                (collect_alerts (dateutil_parse env) alerts_data) (blocked_events cfg)).
Proof.
  unfold current_snapshot.
  destruct (fetch_alerts_for_counties _ _ _ _) as [alerts_data|e]; [|done]. simpl.
  assert (Hwg : well_grouped
                  (filter_blocked_alerts (fnmatch env)
                     (collect_alerts (dateutil_parse env) alerts_data)
                     (blocked_events cfg))).
  { apply filter_well_grouped, collect_alerts_well_grouped. }
  destruct Hwg as [Hnd Hfa]. rewrite sort_alerts_by_severity_eq by done.
  intros [= <-]. eauto.
Qed.

(** X5. The snapshot a cycle builds is a well-formed dictionary: its
    alert types are distinct, none has an empty record list, none
    matches a blocked pattern, the types are in descending order of
    maximum severity, and every record is filed under its own event
    name, comes from a configured zone and has a severity between 0 and
    4. *)
Theorem current_snapshot_invariant (env : Env) (cfg : Config)
    (S : list (string * list AlertData)) :
  current_snapshot env cfg = Returned S ->
  NoDup (dict_keys S)
  /\ Forall (fun kv => snd kv <> []) S
  /\ StronglySorted (fun a b => max_severity (snd b) <= max_severity (snd a)) S
  /\ (forall k, k ∈ dict_keys S ->
        existsb (fnmatch env k) (blocked_events cfg) = false)
  /\ (forall k l a, (k, l) ∈ S -> a ∈ l ->
        event a = k /\ county_code a ∈ county_configs cfg /\ 0 <= severity a <= 4).
Proof.
  intros (alerts_data & Hfetch & ->)%current_snapshot_eq.
  set (C := collect_alerts (dateutil_parse env) alerts_data).
  set (F := filter_blocked_alerts (fnmatch env) C (blocked_events cfg)).
  pose proof (collect_alerts_well_grouped (dateutil_parse env) alerts_data) as HC.
  fold C in HC.
  assert (HF : well_grouped F) by (by apply filter_well_grouped).
  destruct HF as [HFnd HFne].
  pose proof (sort_reverse_perm (fun kv : string * list AlertData =>
                                   max_severity (snd kv)) F) as Hp.
  assert (Hk : dict_keys (sort_reverse (fun kv : string * list AlertData =>
                                          max_severity (snd kv)) F)
               ≡ₚ dict_keys F) by (by apply Permutation_map).
  assert (HinF : forall x, x ∈ F ->
            x ∈ C /\ existsb (fnmatch env (fst x)) (blocked_events cfg) = false).
  { intros x Hx. apply list_elem_of_In, filter_In in Hx as [Hx Hb].
    split; [by apply list_elem_of_In | by apply negb_true_iff]. }
  split; [by rewrite Hk|]. split; [by rewrite Hp|]. split.
  { apply (sort_reverse_sorted (fun kv : string * list AlertData =>
                                  max_severity (snd kv))). }
  split.
  - intros k Hin. rewrite Hk in Hin.
    apply list_elem_of_In, in_map_iff in Hin as ([k' l] & <- & Hx).
    apply list_elem_of_In, HinF in Hx as [_ Hb]. exact Hb.
  - intros k l a Hkl Ha. rewrite Hp in Hkl. apply HinF in Hkl as [Hkl _].
    destruct HC as [HCnd _].
    apply (dict_get_NoDup k l C HCnd) in Hkl.
    destruct (collect_alerts_sound _ _ _ _ _ Hkl Ha)
      as (He & county & features & props & Hin & _ & ->).
    split; [exact He|].
    destruct (parse_feature_range (dateutil_parse env) county props) as [-> Hr].
    split; [|exact Hr].
    unfold fetch_alerts_for_counties in Hfetch.
    destruct (Z.leb _ 0); [done|]. injection Hfetch as <-.
    eapply fetched_keys_configured.
    apply list_elem_of_In, (in_map fst) in Hin. apply list_elem_of_In. exact Hin.
Qed.

Lemma current_snapshot_invariant_witness :
  NoDup (dict_keys tornado_snapshot)
  /\ Forall (fun kv => snd kv <> []) tornado_snapshot
  /\ StronglySorted (fun a b => max_severity (snd b) <= max_severity (snd a))
       tornado_snapshot
  /\ (forall k, k ∈ dict_keys tornado_snapshot ->
        existsb (fnmatch tornado_env k) (blocked_events two_zones) = false)
  /\ (forall k l a, (k, l) ∈ tornado_snapshot -> a ∈ l ->
        event a = k /\ county_code a ∈ county_configs two_zones
        /\ 0 <= severity a <= 4).
Proof.
  apply (current_snapshot_invariant tornado_env two_zones tornado_snapshot).
  reflexivity.
Defined.

(** ** The change detector inside [run] *)

Lemma county_codes_of_instances (a : AlertData) (l : list AlertData) :
  county_codes_of (VList (map VAlert (a :: l))) = Raised TypeError.
Proof. reflexivity. Qed.

Lemma detect_step_instances (old_alerts : pyval) (new_alerts : list (string * pyval))
    (acc : Changes) (k : string) (l : list AlertData) :
  l <> [] ->
  detect_step old_alerts new_alerts acc (k, VList (map VAlert l)) = Returned acc
  \/ exists e, detect_step old_alerts new_alerts acc (k, VList (map VAlert l)) = Raised e.
Proof.
  intros Hl. destruct l as [|a l]; [done|]. unfold detect_step.
  cbn [fst snd].
  destruct (py_contains old_alerts k) as [[|]|e]; cbn [obind negb]; eauto.
  destruct (py_get old_alerts k (VList [])) as [old_info|e]; cbn [obind]; eauto.
  destruct (county_codes_of old_info) as [old_codes|e]; cbn [obind]; eauto.
Qed.

Lemma detect_fold_instances (old_alerts : pyval) (new_alerts : list (string * pyval))
    (S : list (string * list AlertData)) (acc ch : Changes) :
  Forall (fun kv => snd kv <> []) S ->
  foldM (detect_step old_alerts new_alerts) (snapshot_items S) acc = Returned ch ->
  ch = acc.
Proof.
  induction 1 as [|[k l] S Hl HS IH]; simpl; [by intros [= <-]|].
  destruct (detect_step_instances old_alerts new_alerts acc k l Hl) as [->|[e ->]];
    simpl; [exact IH | done].
Qed.

Lemma detect_step_shared (d : list (string * pyval)) (new_alerts : list (string * pyval))
    (acc : Changes) (k : string) (l : list AlertData) :
  l <> [] ->
  detect_step (VDict d) new_alerts acc (k, VList (map VAlert l))
  = (if dict_mem k d
     then match dict_get k d ≫= (fun v => match county_codes_of v with
                                           | Returned _ => None
                                           | Raised e => Some e
                                           end) with
          | Some e => Raised e
          | None => Raised TypeError
          end
     else Returned acc).
Proof.
  intros Hl. destruct l as [|a l]; [done|]. unfold detect_step, dict_mem.
  cbn [fst snd py_contains py_get obind]. unfold dict_mem.
  destruct (dict_get k d) as [v|]; cbn [negb default mbind option_bind]; [|done].
  unfold id. destruct (county_codes_of v) as [old_codes|e]; cbn [obind]; [|done].
  by rewrite county_codes_of_instances.
Qed.

Lemma detect_on_instances (d : list (string * pyval))
    (S : list (string * list AlertData)) :
  Forall (fun kv => snd kv <> []) S ->
  (forall ch, detect_county_changes (VDict d) (snapshot_items S) = Returned ch ->
     ch = no_changes)
  /\ (detect_county_changes (VDict d) (snapshot_items S) = Returned no_changes <->
      forall k, k ∈ dict_keys S -> dict_get k d = None).
Proof.
  intros HS. unfold detect_county_changes. fold no_changes. split.
  - intros ch. by apply detect_fold_instances.
  - generalize (snapshot_items S) at 1. intros new_alerts.
    generalize no_changes. induction HS as [|[k l] S Hl HS IH]; intros acc; simpl.
    + split; [intros _ k Hk; by apply elem_of_nil in Hk | done].
    + rewrite (detect_step_shared d new_alerts acc k l Hl). unfold dict_mem.
      destruct (dict_get k d) as [v|] eqn:Hk; simpl.
      * split.
        -- by destruct (county_codes_of v).
        -- intros H. specialize (H k ltac:(left)). congruence.
      * rewrite IH. split.
        -- intros H k' [->|Hk']%elem_of_cons; [done | by apply H].
        -- intros H k' Hk'. apply H. by right.
Qed.


(** X7. On the snapshots [run] passes to it (records are [AlertData]
    instances, no empty record list) the change detector never reports a
    change: it returns the empty report when no current alert type is in
    the previous snapshot, and raises as soon as one is. *)
Theorem detect_never_reports_in_run (d : list (string * pyval))
    (S : list (string * list AlertData)) :
  Forall (fun kv => snd kv <> []) S ->
  (forall ch, detect_county_changes (VDict d) (snapshot_items S) = Returned ch ->
     ch = no_changes)
  /\ (detect_county_changes (VDict d) (snapshot_items S) = Returned no_changes <->
      forall k, k ∈ dict_keys S -> dict_get k d = None).
Proof. apply detect_on_instances. Qed.

Lemma detect_never_reports_in_run_witness :
  (forall ch,
     detect_county_changes (VDict [("Flood Watch", VList [stored_record "A"])]) (snapshot_items tornado_snapshot)
     = Returned ch -> ch = no_changes)
  /\ (detect_county_changes (VDict [("Flood Watch", VList [stored_record "A"])]) (snapshot_items tornado_snapshot)
      = Returned no_changes <->
      forall k, k ∈ dict_keys tornado_snapshot ->
        dict_get k [("Flood Watch", VList [stored_record "A"])] = None).
Proof.
  apply (detect_never_reports_in_run [("Flood Watch", VList [stored_record "A"])]
           tornado_snapshot).
  repeat constructor; discriminate.
Defined.

(** ** The decisions of a cycle *)

Lemma decisions_none (l : list Call) :
  alert_emitted l = false -> all_clear_emitted l = false -> decisions l = [].
Proof.
  unfold alert_emitted, all_clear_emitted, decisions.
  induction l as [|c l IH]; simpl; [done|].
  intros [Ha Hl]%orb_false_iff [Hc Hl']%orb_false_iff.
  rewrite Ha, Hc. simpl. auto.
Qed.

Lemma emitted_decisions (l : list Call) :
  alert_emitted l = alert_emitted (decisions l)
  /\ all_clear_emitted l = all_clear_emitted (decisions l).
Proof.
  unfold alert_emitted, all_clear_emitted, decisions.
  induction l as [|c l [IH1 IH2]]; simpl; [done|].
  destruct c; simpl; rewrite ?IH1, ?IH2; done.
Qed.

Lemma handle_active_alerts_decisions (c : Collaborators) (cfg : AppConfig)
    (alerts : list (string * list AlertData)) (changes : Changes) (s : Sys) :
  exists new,
    calls (_handle_active_alerts c cfg alerts changes s) = (calls s ++ new)%list
    /\ decisions new
       = if (say_alert cfg &&
             (negb (is_empty (changes_detected changes))
              || negb (truthy (state_get "last_sayalert" (state s)))))%bool
         then [SayAlerts alerts (max_alerts cfg)]
         else [].
Proof.
  unfold _handle_active_alerts, active_alerts_body.
  destruct (say_alert cfg && _)%bool.
  - destruct (alert_announcer_say_alerts c alerts (max_alerts cfg)) as [b|e]; simpl.
    + destruct (notify_alerts_frame c alerts
                  (set_state "last_sayalert" (snapshot_val alerts)
                     (call (SayAlerts alerts (max_alerts cfg)) s)))
        as (new & _ & _ & _ & Hc & Ha & Hac).
      exists (SayAlerts alerts (max_alerts cfg) :: new).
      rewrite Hc. simpl. rewrite <- app_assoc. split; [done|].
      unfold decisions. simpl. f_equal. by apply decisions_none.
    + by exists [SayAlerts alerts (max_alerts cfg)].
  - destruct (notify_alerts_frame c alerts s) as (new & _ & _ & _ & Hc & Ha & Hac).
    exists new. split; [done|]. by apply decisions_none.
Qed.

Lemma handle_all_clear_decisions (c : Collaborators) (cfg : AppConfig)
    (old_alerts : pyval) (s : Sys) :
  exists new,
    calls (_handle_all_clear c cfg old_alerts s) = (calls s ++ new)%list
    /\ decisions new
       = if (truthy old_alerts && say_all_clear cfg)%bool then [SayAllClear] else [].
Proof.
  unfold _handle_all_clear, all_clear_body.
  destruct (truthy old_alerts && say_all_clear cfg)%bool.
  - destruct (alert_announcer_say_all_clear c) as [b|e]; simpl.
    2:{ by exists [SayAllClear]. }
    destruct (old_counties old_alerts) as [counties|e]; simpl.
    2:{ by exists [SayAllClear]. }
    destruct (notification_service_send_all_clear_notification c counties) as [b'|e];
      simpl; exists [SayAllClear; AllClearNotification counties];
      by rewrite <- app_assoc.
  - exists []. by rewrite app_nil_r.
Qed.

Lemma run_decisions (env : Env) (cfg : Config) (s : Sys) :
  exists new,
    calls (snd (run env cfg s)) = (calls s ++ new)%list
    /\ decisions new = cycle_decisions env cfg (state s).
Proof.
  unfold run, cycle_decisions.
  destruct (enabled (app_config cfg)); simpl.
  2:{ exists []. by rewrite app_nil_r. }
  destruct (run_body env cfg s) as [r s1] eqn:Hbody. simpl.
  destruct (cleanup_frame env s1) as (_ & -> & _).
  revert Hbody. unfold run_body.
  destruct (is_empty (county_configs cfg)); simpl.
  { intros [= _ <-]. exists []. by rewrite app_nil_r. }
  destruct (current_snapshot env cfg) as [S|e]; simpl.
  2:{ intros [= _ <-]. exists []. by rewrite app_nil_r. }
  destruct (detect_county_changes _ (snapshot_items S)) as [changes|e]; simpl.
  2:{ intros [= _ <-]. exists []. by rewrite app_nil_r. }
  intros [= _ <-]. simpl.
  destruct (negb (is_empty S)).
  - apply handle_active_alerts_decisions.
  - apply handle_all_clear_decisions.
Qed.

Lemma main_decisions (env : Env) (cfg : Config) (file : file_content) :
  decisions (snd (fst (main env cfg file)))
  = match load_state file with
    | Returned (st, _) => cycle_decisions env cfg st
    | Raised _ => []
    end.
Proof.
  unfold main. destruct (load_state file) as [[st sm]|e]; [|done].
  destruct (run_decisions env cfg
              {| state := st; state_manager := sm; data_file := file; calls := [] |})
    as (new & Hc & Hd).
  destruct (run env cfg _) as [r s1]. simpl in *.
  destruct (cleanup_frame env s1) as (_ & -> & _). by rewrite Hc.
Qed.

Lemma cycle_decisions_short (env : Env) (cfg : Config) (st : list (string * pyval)) :
  (length (cycle_decisions env cfg st) <= 1)%nat.
Proof.
  unfold cycle_decisions.
  repeat match goal with
         | |- context [if ?b then _ else _] => destruct b
         | |- context [match ?x with Returned _ => _ | Raised _ => _ end] => destruct x
         end; simpl; lia.
Qed.

(** X8. A cycle makes at most one announcement: never two alert
    announcements, never two all-clears, never an alert and an all-clear
    together. *)
Theorem at_most_one_decision (env : Env) (cfg : Config) (file : file_content) :
  (length (decisions (snd (fst (main env cfg file)))) <= 1)%nat.
Proof.
  rewrite main_decisions. destruct (load_state file) as [[st sm]|e]; simpl; [|lia].
  apply cycle_decisions_short.
Qed.

Lemma detect_in_cycle_empty (env : Env) (cfg : Config)
    (S : list (string * list AlertData)) (old_alerts : pyval) (changes : Changes) :
  current_snapshot env cfg = Returned S ->
  detect_county_changes old_alerts (snapshot_items S) = Returned changes ->
  changes = no_changes.
Proof.
  intros HS Hd. unfold detect_county_changes in Hd.
  eapply detect_fold_instances; [|exact Hd].
  destruct (current_snapshot_eq env cfg S HS) as (alerts_data & _ & ->).
  pose proof (filter_well_grouped
                (fun kv => negb (existsb (fnmatch env (fst kv)) (blocked_events cfg)))
                _ (collect_alerts_well_grouped (dateutil_parse env) alerts_data))
    as [_ Hne].
  pose proof (sort_reverse_perm (fun kv : string * list AlertData =>
                max_severity (snd kv))
                (filter_blocked_alerts (fnmatch env)
                   (collect_alerts (dateutil_parse env) alerts_data)
                   (blocked_events cfg))) as Hp.
  by rewrite Hp.
Qed.

(** X9. A cycle announces an alert exactly when the application is
    enabled, a zone is configured, the current snapshot is non-empty, the
    change detector returns, SayAlert is enabled and the loaded state has
    no say-alert snapshot ([last_sayalert] missing or empty).  In [run]
    the detector's report is always empty, so a change of county
    coverage is never announced once an alert was announced. *)
Theorem alert_decision_in_cycle (env : Env) (cfg : Config) (file : file_content) :
  alert_emitted (snd (fst (main env cfg file))) = true <->
  exists st sm S,
    load_state file = Returned (st, sm)
    /\ enabled (app_config cfg) = true
    /\ county_configs cfg <> []
    /\ current_snapshot env cfg = Returned S /\ S <> []
    /\ is_returned (detect_county_changes
                      (default (VDict []) (dict_get "last_alerts" st))
                      (snapshot_items S)) = true
    /\ say_alert (app_config cfg) = true
    /\ truthy (state_get "last_sayalert" st) = false.
Proof.
  destruct (emitted_decisions (snd (fst (main env cfg file)))) as [-> _].
  rewrite main_decisions. destruct (load_state file) as [[st sm]|e] eqn:Hload.
  2:{ split; [done | intros (? & ? & ? & ? & _); done]. }
  unfold cycle_decisions.
  destruct (enabled (app_config cfg)); simpl.
  2:{ split; [done | intros (? & ? & ? & _ & ? & _); done]. }
  destruct (county_configs cfg) as [|c0 cs] eqn:Hcc; simpl.
  { split; [done | intros (? & ? & ? & _ & _ & ? & _); done]. }
  destruct (current_snapshot env cfg) as [S|e] eqn:HS; simpl.
  2:{ split; [done | intros (? & ? & ? & _ & _ & _ & ? & _); done]. }
  destruct (detect_county_changes _ (snapshot_items S)) as [changes|e] eqn:Hd.
  2:{ split; [done|]. intros (st' & sm' & S' & [= <- <-] & _ & _ & [= <-] & _ & Hr & _).
      by rewrite Hd in Hr. }
  rewrite (detect_in_cycle_empty env cfg S _ changes HS Hd). simpl.
  destruct S as [|kv S']; simpl.
  { split; [by destruct (truthy _ && _)%bool|].
    intros (? & ? & ? & _ & _ & _ & [= <-] & ? & _). done. }
  destruct (say_alert (app_config cfg)) eqn:Hsay; simpl.
  2:{ split; [done | intros (? & ? & ? & _ & _ & _ & _ & _ & _ & ? & _); done]. }
  destruct (truthy (state_get "last_sayalert" st)) eqn:Ht; simpl.
  - split; [done|].
    intros (st' & sm' & S'' & [= <- <-] & _ & _ & _ & _ & _ & _ & Ht'). congruence.
  - split; [|done]. intros _. exists st, sm, (kv :: S'). rewrite Hd. done.
Qed.

(** X10. A cycle announces the all-clear exactly when the application is
    enabled, a zone is configured, the current snapshot is empty,
    SayAllClear is enabled and the loaded state holds a non-empty
    [last_alerts]; in particular a cycle that starts without a state
    file never announces an all-clear. *)
Theorem all_clear_decision (env : Env) (cfg : Config) (file : file_content) :
  (all_clear_emitted (snd (fst (main env cfg file))) = true <->
   exists st sm,
     load_state file = Returned (st, sm)
     /\ enabled (app_config cfg) = true
     /\ county_configs cfg <> []
     /\ current_snapshot env cfg = Returned []
     /\ say_all_clear (app_config cfg) = true
     /\ truthy (default (VDict []) (dict_get "last_alerts" st)) = true)
  /\ all_clear_emitted (snd (fst (main env cfg Missing))) = false.
Proof.
  assert (Hiff : forall file,
    all_clear_emitted (snd (fst (main env cfg file))) = true <->
    exists st sm,
      load_state file = Returned (st, sm)
      /\ enabled (app_config cfg) = true
      /\ county_configs cfg <> []
      /\ current_snapshot env cfg = Returned []
      /\ say_all_clear (app_config cfg) = true
      /\ truthy (default (VDict []) (dict_get "last_alerts" st)) = true).
  { clear file. intros file.
    destruct (emitted_decisions (snd (fst (main env cfg file)))) as [_ ->].
    rewrite main_decisions. destruct (load_state file) as [[st sm]|e].
    2:{ split; [done | intros (? & ? & ? & _); done]. }
    unfold cycle_decisions.
    destruct (enabled (app_config cfg)); simpl.
    2:{ split; [done | intros (? & ? & _ & ? & _); done]. }
    destruct (county_configs cfg) as [|c0 cs] eqn:Hcc; simpl.
    { split; [done | intros (? & ? & _ & _ & ? & _); done]. }
    destruct (current_snapshot env cfg) as [[|kv S]|e]; simpl.
    - destruct (truthy (default (VDict []) (dict_get "last_alerts" st))) eqn:Ht,
        (say_all_clear (app_config cfg)) eqn:Hs; simpl.
      + split; [|done]. intros _. exists st, sm. done.
      + split; [done | intros (? & ? & _ & _ & _ & _ & ? & _); done].
      + split; [done|]. intros (st' & sm' & [= <- <-] & _ & _ & _ & _ & Ht').
        congruence.
      + split; [done | intros (? & ? & _ & _ & _ & _ & ? & _); done].
    - split; [|intros (? & ? & _ & _ & _ & ? & _); done].
      destruct (detect_county_changes _ _) as [changes|e]; [|done].
      by destruct (say_alert (app_config cfg) && _)%bool.
    - split; [done | intros (? & ? & _ & _ & _ & ? & _); done]. }
  split; [apply Hiff|].
  destruct (all_clear_emitted (snd (fst (main env cfg Missing)))) eqn:He; [|done].
  apply Hiff in He as (st & sm & [= <- <-] & _ & _ & _ & _ & Ht). done.
Qed.

(** ** The state store, further *)

(** X12. [save_state] keeps the keys of the state, turns every set at the
    top level or directly inside a top-level dictionary into a list, and
    changes nothing else; saving what it produced changes nothing more. *)
Theorem save_state_converts_sets (st : list (string * pyval)) (sm : StateManager) :
  let cache := _state_cache (save_state st sm) in
  dict_keys cache = dict_keys st
  /\ is_dirty (save_state st sm) = true
  /\ (forall k v, (k, v) ∈ cache ->
        is_set v = false
        /\ forall d, v = VDict d -> forall k' v', (k', v') ∈ d -> is_set v' = false)
  /\ (forall k v, (k, v) ∈ st -> is_set v = false ->
        (forall d, v = VDict d -> forall k' v', (k', v') ∈ d -> is_set v' = false) ->
        (k, v) ∈ cache)
  /\ _state_cache (save_state cache sm) = cache.
Proof.
  simpl. unfold state_for_json. repeat split.
  - unfold dict_keys. rewrite map_map. by apply map_ext.
  - apply list_elem_of_In, in_map_iff in H as ([k0 v0] & [= <- <-] & _).
    by destruct v0.
  - intros d Hd k' v' Hin.
    apply list_elem_of_In, in_map_iff in H as ([k0 v0] & [= <- Hv] & _).
    destruct v0; simpl in Hv; try (rewrite <- Hv in Hd; discriminate).
    rewrite <- Hv in Hd. injection Hd as <-.
    apply list_elem_of_In, in_map_iff in Hin as ([k1 v1] & [= <- <-] & _).
    by destruct v1.
  - intros k v Hin Hv Hd. apply list_elem_of_In, in_map_iff.
    exists (k, v). split; [|by apply list_elem_of_In]. simpl. f_equal.
    destruct v as [| | | | |d| |]; try done. f_equal.
    specialize (Hd d eq_refl). clear -Hd.
    induction d as [|[k' v'] d IH]; simpl; [done|].
    rewrite IH by (intros k1 v1 H1; apply (Hd k1 v1); by right).
    f_equal. f_equal. specialize (Hd k' v' ltac:(left)). by destruct v'.
  - rewrite map_map. apply map_ext. intros [k v]. simpl. f_equal.
    destruct v as [| | | | |d| |]; try done. f_equal.
    rewrite map_map. apply map_ext. intros [k' v']. simpl. by destruct v'.
Qed.

Lemma get_set_state_value_same (key : string) (v dflt : pyval) (sm : StateManager) :
  get_state_value key dflt (set_state_value key v sm) = v.
Proof. unfold get_state_value, set_state_value. simpl. by rewrite dict_get_set_eq. Qed.

(** X14. A value stored with [set_state_value] is what [get_state_value]
    returns for that key, the other keys keep their values, and the
    cache is dirty; when the cache is JSON and the disk writable, the
    value survives [flush_state] and [load_state]. *)
Theorem set_state_value_spec (key : string) (v dflt : pyval) (sm : StateManager)
    (file : file_content) :
  get_state_value key dflt (set_state_value key v sm) = v
  /\ (forall key', key' <> key ->
        get_state_value key' dflt (set_state_value key v sm)
        = get_state_value key' dflt sm)
  /\ is_dirty (set_state_value key v sm) = true
  /\ (json_serialisable (VDict (_state_cache (set_state_value key v sm))) = true ->
      forall disk, writable disk = true ->
      exists sm' file' st sm'',
        flush_state disk (set_state_value key v sm) file = (Returned tt, sm', file')
        /\ load_state file' = Returned (st, sm'')
        /\ get_state_value key dflt sm'' = v
        /\ dict_get key st = Some v).
Proof.
  split; [apply get_set_state_value_same|]. split; [|split; [done|]].
  - intros key' Hne. unfold get_state_value, set_state_value. simpl.
    rewrite dict_get_set_ne; [done|]. by apply String.eqb_neq.
  - intros Hj disk [Hopen Hwrite]%andb_true_iff. unfold flush_state.
    cbn [_state_dirty set_state_value negb]. rewrite Hopen, Hwrite, Hj.
    cbn [negb andb]. do 4 eexists. split; [reflexivity|]. split; [reflexivity|].
    unfold get_state_value. simpl. by rewrite dict_get_set_eq.
Qed.

(** ** What a cycle writes *)

Lemma current_snapshot_nonempty_lists (env : Env) (cfg : Config)
    (S : list (string * list AlertData)) :
  current_snapshot env cfg = Returned S -> Forall (fun kv => snd kv <> []) S.
Proof.
  intros (alerts_data & _ & ->)%current_snapshot_eq.
  pose proof (filter_well_grouped
                (fun kv => negb (existsb (fnmatch env (fst kv)) (blocked_events cfg)))
                _ (collect_alerts_well_grouped (dateutil_parse env) alerts_data))
    as [_ Hne].
  pose proof (sort_reverse_perm (fun kv : string * list AlertData =>
                max_severity (snd kv))
                (filter_blocked_alerts (fnmatch env)
                   (collect_alerts (dateutil_parse env) alerts_data)
                   (blocked_events cfg))) as Hp.
  by rewrite Hp.
Qed.

Lemma json_serialisable_get (d : list (string * pyval)) (k : string) (v : pyval) :
  json_serialisable (VDict d) = true -> dict_get k d = Some v ->
  json_serialisable v = true.
Proof.
  simpl. intros Hd Hk. apply dict_get_Some_elem_of, list_elem_of_In in Hk.
  rewrite forallb_forall in Hd. exact (Hd (k, v) Hk).
Qed.

Lemma snapshot_val_json (S : list (string * list AlertData)) :
  Forall (fun kv => snd kv <> []) S ->
  json_serialisable (snapshot_val S) = true -> S = [].
Proof.
  destruct 1 as [|[k l] S Hl HS]; [done|].
  destruct l as [|a l]; [done|]. discriminate.
Qed.

Lemma cleanup_clean (env : Env) (s : Sys) :
  _state_dirty (state_manager s) = false -> cleanup env s = s.
Proof.
  intros Hd. unfold cleanup, flush_state. rewrite Hd. simpl. by destruct s.
Qed.

Lemma cleanup_dirty (env : Env) (s : Sys) :
  _state_dirty (state_manager s) = true ->
  cleanup env s
  = if (writable (disk env)
        && json_serialisable (VDict (_state_cache (state_manager s))))%bool
    then {| state := state s;
            state_manager := {| _state_cache := _state_cache (state_manager s);
                                _state_dirty := false |};
            data_file := Doc (_state_cache (state_manager s));
            calls := calls s |}
    else s.
Proof.
  intros Hd. unfold cleanup, flush_state, writable. rewrite Hd. cbn [negb].
  destruct (open_temp (disk env)); cbn [negb andb]; [|by destruct s].
  destruct (json_serialisable _), (write_replace (disk env)); cbn [andb];
    done || by destruct s.
Qed.

Lemma load_state_clean (file : file_content) (st : list (string * pyval))
    (sm : StateManager) :
  load_state file = Returned (st, sm) -> _state_dirty sm = false.
Proof. destruct file; simpl; [intros [= <- <-]|discriminate|intros [= <- <-]]; done. Qed.

(** X15. A cycle either leaves the state file as it was or replaces it by
    a JSON document whose [last_alerts] is the empty dictionary, and the
    latter only when the snapshot of the cycle is empty: a snapshot that
    holds a record is never written to the state file. *)
Theorem only_empty_snapshot_persisted (env : Env) (cfg : Config) (file : file_content) :
  snd (main env cfg file) = file
  \/ exists d,
       snd (main env cfg file) = Doc d
       /\ json_serialisable (VDict d) = true
       /\ dict_get "last_alerts" d = Some (VDict [])
       /\ current_snapshot env cfg = Returned [].
Proof.
  unfold main. destruct (load_state file) as [[st sm]|e] eqn:Hload; [|by left].
  pose proof (load_state_clean file st sm Hload) as Hclean.
  set (s0 := {| state := st; state_manager := sm; data_file := file; calls := [] |}).
  assert (Hidle : forall r, run env cfg s0 = (r, s0) ->
            snd (let '(r, s) := run env cfg s0 in
                 let s := cleanup env s in (r, calls s, data_file s)) = file).
  { intros r ->. by rewrite cleanup_clean. }
  destruct (enabled (app_config cfg)) eqn:Hen.
  2:{ left. apply (Hidle (Returned tt)). unfold run. by rewrite Hen. }
  destruct (county_configs cfg) as [|c0 cs] eqn:Hcc.
  { left. apply (Hidle (Returned tt)). unfold run, run_body.
    rewrite Hen, Hcc. simpl. by rewrite cleanup_clean. }
  destruct (current_snapshot env cfg) as [S|e] eqn:HS.
  2:{ left. apply (Hidle (Raised e)). unfold run, run_body.
      rewrite Hen, Hcc, HS. simpl. by rewrite cleanup_clean. }
  destruct (detect_county_changes (default (VDict []) (dict_get "last_alerts" st))
              (snapshot_items S)) as [changes|e] eqn:Hd.
  2:{ left. apply (Hidle (Raised e)). unfold run, run_body.
      rewrite Hen, Hcc, HS. simpl. rewrite Hd. by rewrite cleanup_clean. }
  rewrite (run_reaches_handlers env cfg s0 S changes Hen); [|by rewrite Hcc|done|done].
  set (handled := if negb (is_empty S)
                  then _handle_active_alerts (collaborators env) (app_config cfg) S changes s0
                  else _handle_all_clear (collaborators env) (app_config cfg)
                         (default (VDict []) (dict_get "last_alerts" (state s0))) s0).
  assert (Hfile : data_file handled = file).
  { subst handled. destruct (negb (is_empty S)).
    - by destruct (handle_active_alerts_frame (collaborators env) (app_config cfg)
                     S changes s0) as (_ & -> & _).
    - by destruct (handle_all_clear_spec (collaborators env) (app_config cfg)
                     (default (VDict []) (dict_get "last_alerts" (state s0))) s0)
        as (new & _ & _ & -> & _). }
  set (st1 := dict_set "last_alerts" (snapshot_val S) (state handled)).
  set (saved := {| state := st1;
                   state_manager := save_state st1 (state_manager handled);
                   data_file := data_file handled;
                   calls := calls handled |}).
  cbn [snd]. rewrite (cleanup_dirty env saved) by done.
  destruct (writable (disk env)
            && json_serialisable (VDict (_state_cache (state_manager saved))))%bool
    eqn:Hw.
  - right. rewrite cleanup_clean by done. cbn [data_file].
    apply andb_true_iff in Hw as [_ Hj]. cbn in Hj.
    assert (Hla : dict_get "last_alerts" (state_for_json st1) = Some (snapshot_val S)).
    { apply state_for_json_snapshot. subst st1. apply dict_get_set_eq. }
    pose proof (json_serialisable_get (state_for_json st1) _ _ Hj Hla) as HjS.
    apply snapshot_val_json in HjS; [|by eapply current_snapshot_nonempty_lists].
    subst S. exists (state_for_json st1). done.
  - left. rewrite (cleanup_dirty env saved) by done. rewrite Hw. exact Hfile.
Qed.

(** ** Sorting, further *)

Lemma insert_desc_head {A} (key : A -> Z) (x : A) (l : list A) :
  Forall (fun y => key y <= key x) l -> insert_desc key x l = x :: l.
Proof.
  destruct 1 as [|y l Hy Hl]; simpl; [done|].
  destruct (Z.ltb_spec (key x) (key y)); [lia | done].
Qed.

Lemma sort_reverse_sorted_id {A} (key : A -> Z) (l : list A) :
  StronglySorted (desc key) l -> sort_reverse key l = l.
Proof.
  induction 1 as [|x l Hl IH Hx]; simpl; [done|].
  rewrite IH. by apply insert_desc_head.
Qed.

Lemma insert_desc_filter_sorted {A} (key : A -> Z) (P : A -> bool) (x : A) (l : list A) :
  StronglySorted (desc key) l ->
  List.filter P (insert_desc key x l)
  = if P x then insert_desc key x (List.filter P l) else List.filter P l.
Proof.
  induction 1 as [|y l Hl IH Hy]; simpl.
  - by destruct (P x).
  - destruct (Z.ltb_spec (key x) (key y)) as [Hlt|Hge]; simpl.
    + rewrite IH. destruct (P y), (P x); simpl; try done.
      destruct (Z.ltb_spec (key x) (key y)); [done | lia].
    + destruct (P x) eqn:Hx; [|done].
      rewrite insert_desc_head; [done|].
      apply Forall_forall. intros z Hz.
      apply list_elem_of_In in Hz.
      change (In z (List.filter P (y :: l))) in Hz.
      apply filter_In in Hz as [Hz _]. destruct Hz as [<-|Hz]; [done|].
      rewrite Forall_forall in Hy. apply list_elem_of_In, Hy in Hz.
      unfold desc in Hz. lia.
Qed.

Lemma sort_reverse_filter {A} (key : A -> Z) (P : A -> bool) (l : list A) :
  sort_reverse key (List.filter P l) = List.filter P (sort_reverse key l).
Proof.
  induction l as [|x l IH]; simpl; [done|].
  rewrite insert_desc_filter_sorted by apply sort_reverse_sorted.
  destruct (P x); simpl; by rewrite IH.
Qed.

(** X16. Sorting a snapshot that is already in descending order of
    maximum severity returns it unchanged; in particular sorting twice
    is the same as sorting once. *)
Theorem sort_alerts_by_severity_idempotent (alerts : list (string * list AlertData)) :
  NoDup (dict_keys alerts) ->
  Forall (fun kv => snd kv <> []) alerts ->
  (StronglySorted (fun a b => max_severity (snd b) <= max_severity (snd a)) alerts ->
   sort_alerts_by_severity alerts = Returned alerts)
  /\ exists sorted_alerts,
       sort_alerts_by_severity alerts = Returned sorted_alerts
       /\ sort_alerts_by_severity sorted_alerts = Returned sorted_alerts.
Proof.
  intros Hnd Hne. rewrite sort_alerts_by_severity_eq by done. split.
  - intros Hs. f_equal.
    by apply (sort_reverse_sorted_id (fun kv : string * list AlertData =>
                                        max_severity (snd kv))).
  - eexists. split; [reflexivity|].
    pose proof (sort_reverse_perm (fun kv : string * list AlertData =>
                                     max_severity (snd kv)) alerts) as Hp.
    rewrite sort_alerts_by_severity_eq.
    + f_equal. apply sort_reverse_sorted_id, sort_reverse_sorted.
    + unfold dict_keys in *.
      assert (Hk : map fst (sort_reverse (fun kv : string * list AlertData =>
                                            max_severity (snd kv)) alerts)
                   ≡ₚ map fst alerts) by (by apply Permutation_map).
      by rewrite Hk.
    + by rewrite Hp.
Qed.

Lemma sort_alerts_by_severity_idempotent_witness :
  (StronglySorted (fun a b => max_severity (snd b) <= max_severity (snd a)) three_types ->
   sort_alerts_by_severity three_types = Returned three_types)
  /\ exists sorted_alerts,
       sort_alerts_by_severity three_types = Returned sorted_alerts
       /\ sort_alerts_by_severity sorted_alerts = Returned sorted_alerts.
Proof.
  apply (sort_alerts_by_severity_idempotent three_types).
  - apply (bool_decide_unpack _). vm_compute. exact I.
  - repeat constructor; discriminate.
Defined.

(** X17. Filtering the blocked alert types and sorting by severity
    commute: sorting the filtered alerts, as [run] does, gives the same
    snapshot as filtering the sorted alerts. *)
Theorem filter_then_sort_commute (fnmatch : string -> string -> bool)
    (alerts : list (string * list AlertData)) (blocked_events : list string) :
  NoDup (dict_keys alerts) ->
  Forall (fun kv => snd kv <> []) alerts ->
  exists sorted_alerts,
    sort_alerts_by_severity alerts = Returned sorted_alerts
    /\ sort_alerts_by_severity (filter_blocked_alerts fnmatch alerts blocked_events)
       = Returned (filter_blocked_alerts fnmatch sorted_alerts blocked_events).
Proof.
  intros Hnd Hne. rewrite sort_alerts_by_severity_eq by done.
  eexists. split; [reflexivity|].
  destruct (filter_well_grouped
              (fun kv => negb (existsb (fnmatch (fst kv)) blocked_events)) alerts
              (conj Hnd Hne)) as [Hnd' Hne'].
  unfold filter_blocked_alerts in *.
  rewrite sort_alerts_by_severity_eq by done. f_equal.
  apply sort_reverse_filter.
Qed.

Lemma filter_then_sort_commute_witness :
  exists sorted_alerts,
    sort_alerts_by_severity three_types = Returned sorted_alerts
    /\ sort_alerts_by_severity
         (filter_blocked_alerts (fun t p => String.prefix p t) three_types ["Flood"])
       = Returned
           (filter_blocked_alerts (fun t p => String.prefix p t) sorted_alerts ["Flood"]).
Proof.
  apply (filter_then_sort_commute (fun t p => String.prefix p t) three_types ["Flood"]).
  - apply (bool_decide_unpack _). vm_compute. exact I.
  - repeat constructor; discriminate.
Defined.

(** ** Cleaning county codes *)

Lemma clean_char_kept (c : Ascii.ascii) :
  (Ascii.eqb c "{"%char || Ascii.eqb c "}"%char || Ascii.eqb c quote_char)%bool = false
  <-> ~ In c cleaned_chars.
Proof.
  unfold cleaned_chars. simpl.
  destruct (Ascii.eqb_spec c "{"%char), (Ascii.eqb_spec c "}"%char),
    (Ascii.eqb_spec c quote_char); simpl; intuition congruence.
Qed.

(** X18. [clean] removes every brace and double quote of a county code
    and nothing else: the result holds none of these characters, its
    other characters are those of the code in the same order, a code
    without them is unchanged, and cleaning twice is cleaning once. *)
Theorem clean_spec (code : string) :
  (forall c, In c cleaned_chars -> ~ In c (list_ascii_of_string (clean code)))
  /\ list_ascii_of_string (clean code)
     = List.filter (fun c => negb (bool_decide (In c cleaned_chars)))
         (list_ascii_of_string code)
  /\ ((forall c, In c cleaned_chars -> ~ In c (list_ascii_of_string code)) ->
      clean code = code)
  /\ clean (clean code) = clean code.
Proof.
  assert (Hf : forall s, list_ascii_of_string (clean s)
                 = List.filter (fun c => negb (bool_decide (In c cleaned_chars)))
                     (list_ascii_of_string s)).
  { induction s as [|c s IH]; simpl; [done|].
    destruct (Ascii.eqb c "{"%char || Ascii.eqb c "}"%char || Ascii.eqb c quote_char)%bool
      eqn:Hc.
    - rewrite bool_decide_eq_true_2; [exact IH|].
      destruct (decide (In c cleaned_chars)) as [|Hn]; [done|].
      apply clean_char_kept in Hn. congruence.
    - rewrite bool_decide_eq_false_2 by (by apply clean_char_kept).
      simpl. by rewrite IH. }
  assert (Hid : forall s, (forall c, In c cleaned_chars -> ~ In c (list_ascii_of_string s)) ->
                  clean s = s).
  { induction s as [|c s IH]; simpl; [done|]. intros Hs.
    replace (Ascii.eqb c "{"%char || Ascii.eqb c "}"%char || Ascii.eqb c quote_char)%bool
      with false.
    - rewrite IH; [done|]. intros c' Hc' Hin. apply (Hs c' Hc'). by right.
    - symmetry. apply clean_char_kept. intros Hc. apply (Hs c Hc). by left. }
  assert (Hnone : forall c, In c cleaned_chars -> ~ In c (list_ascii_of_string (clean code))).
  { intros c Hc. rewrite Hf. intros [_ Hin]%filter_In.
    apply negb_true_iff, bool_decide_eq_false in Hin. done. }
  split; [exact Hnone|]. split; [apply Hf|]. split; [apply Hid|]. by apply Hid.
Qed.

(** ** One zone *)

(** X19. [fetch_county_alerts] always answers for the county it was
    asked about, and returns a payload exactly when the first response
    arrives, has a status outside 400..599 and decodes to an object with
    a [features] member; so the result depends on the first response
    only: the retry after a 429 status is never reached. *)
Theorem fetch_county_alerts_spec (client : NWSAPIClient)
    (session_get : string -> Z -> nat -> outcome Response) (county : string) :
  fst (fetch_county_alerts client session_get county) = county
  /\ (forall features,
        snd (fetch_county_alerts client session_get county) = Some features <->
        exists response,
          session_get county (timeout client) 0%nat = Returned response
          /\ ~ (400 <= status_code response < 600)
          /\ json response = Returned (Some features))
  /\ (forall session_get',
        session_get' county (timeout client) 0%nat
        = session_get county (timeout client) 0%nat ->
        fetch_county_alerts client session_get' county
        = fetch_county_alerts client session_get county).
Proof.
  assert (Hreq : forall sg,
            request_alerts client sg county
            = match sg county (timeout client) 0%nat with
              | Returned response =>
                  if (Z.leb 400 (status_code response)
                      && Z.ltb (status_code response) 600)%bool
                  then Raised HTTPError
                  else json response
              | Raised e => Raised e
              end).
  { intros sg. unfold request_alerts, raise_for_status.
    destruct (sg county (timeout client) 0%nat) as [response|e]; simpl; [|done].
    destruct (Z.leb_spec 400 (status_code response)),
      (Z.ltb_spec (status_code response) 600); simpl; try done;
      destruct (Z.eqb_spec (status_code response) 429); simpl; try done; lia. }
  split; [apply fetch_county_alerts_fst|]. split.
  - intros features. unfold fetch_county_alerts. rewrite Hreq.
    destruct (session_get county (timeout client) 0%nat) as [response|e]; simpl.
    2:{ split; [done | intros (? & ? & _); done]. }
    destruct (Z.leb_spec 400 (status_code response)),
      (Z.ltb_spec (status_code response) 600); simpl.
    1:{ split; [done|]. intros (r & [= <-] & Hn & _). lia. }
    all: split;
      [ intros Hsome; exists response; split; [done|]; split; [lia|];
        destruct (json response) as [[f|]|e']; simpl in Hsome; congruence
      | intros (r & [= <-] & _ & ->); done ].
  - intros sg' Heq. unfold fetch_county_alerts. by rewrite !Hreq, Heq.
Qed.

(** ** The table of alert strings *)

Lemma list_index_Some (x : string) (l : list string) (i : nat) :
  list_index x l = Some i <->
  l !! i = Some x /\ forall j, (j < i)%nat -> l !! j <> Some x.
Proof.
  revert i. induction l as [|y l IH]; intros i; simpl.
  - split; [done | intros [? _]; done].
  - destruct (String.eqb_spec y x) as [->|Hne].
    + split.
      * intros [= <-]. split; [done|]. intros j Hj. lia.
      * intros [Hi Hmin]. destruct i as [|i]; [done|].
        exfalso. apply (Hmin 0%nat); [lia | done].
    + destruct (list_index x l) as [i'|].
      * split.
        -- intros [= <-]. destruct (proj1 (IH i') eq_refl) as [Hi Hmin]. split; [done|].
           intros [|j] Hj; simpl; [congruence|]. apply Hmin. lia.
        -- intros [Hi Hmin]. destruct i as [|i]; simpl in Hi; [congruence|].
           assert (Hs : Some i' = Some i); [|congruence].
           apply IH. split; [done|]. intros j Hj. apply (Hmin (S j)). lia.
      * split; [done|]. intros [Hi Hmin].
        destruct i as [|i]; simpl in Hi; [congruence|].
        assert (Hs : @None nat = Some i); [|done].
        apply IH. split; [done|]. intros j Hj. apply (Hmin (S j)). lia.
Qed.

Lemma list_index_None (x : string) (l : list string) :
  list_index x l = None <-> x ∉ l.
Proof.
  induction l as [|y l IH]; simpl.
  - split; [intros _; apply not_elem_of_nil | done].
  - rewrite not_elem_of_cons. destruct (String.eqb_spec y x) as [->|Hne].
    + split; [done | intros [? _]; done].
    + destruct (list_index x l); split; try done.
      * intros [_ Hx]. by apply IH in Hx.
      * intros _. split; [congruence | by apply IH].
Qed.

(** X20. [get_alert_index] returns the 1-based position of the first
    occurrence of the string in [ALERT_STRINGS], a member of
    [ALERT_INDEXES], and nothing for a string that is not in the table.
    The table lists some strings more than once, so the positions of the
    repetitions are never returned: position 55, the second
    [Frost Advisory], is one of them. *)
Theorem get_alert_index_spec (alert_string : string) :
  (forall n, get_alert_index alert_string = Some n ->
     1 <= n <= Z.of_nat (length ALERT_STRINGS)
     /\ n ∈ ALERT_INDEXES
     /\ ALERT_STRINGS !! Z.to_nat (n - 1) = Some alert_string
     /\ forall m, 1 <= m < n -> ALERT_STRINGS !! Z.to_nat (m - 1) <> Some alert_string)
  /\ (get_alert_index alert_string = None <-> alert_string ∉ ALERT_STRINGS)
  /\ 55 ∈ ALERT_INDEXES
  /\ get_alert_index alert_string <> Some 55.
Proof.
  unfold get_alert_index. split; [|split; [|split]].
  - intros n. destruct (list_index alert_string ALERT_STRINGS) as [i|] eqn:Hi; [|done].
    intros [= <-]. apply list_index_Some in Hi as [Hi Hmin].
    pose proof (lookup_lt_Some _ _ _ Hi) as Hlt.
    replace (Z.to_nat (Z.of_nat i + 1 - 1)) with i by lia.
    split; [lia|]. split; [|split; [done|]].
    + unfold ALERT_INDEXES. apply list_elem_of_In, in_map_iff. exists i.
      split; [done|]. apply in_seq. lia.
    + intros m Hm. apply Hmin. lia.
  - destruct (list_index alert_string ALERT_STRINGS) as [i|] eqn:Hi.
    + split; [done|]. intros Hn. apply list_index_None in Hn. congruence.
    + split; [|done]. intros _. by apply list_index_None.
  - unfold ALERT_INDEXES. apply list_elem_of_In, in_map_iff. exists 54%nat.
    split; [done|]. apply in_seq. simpl. lia.
  - destruct (list_index alert_string ALERT_STRINGS) as [i|] eqn:Hi; [|done].
    intros [= Hn]. assert (i = 54%nat) as -> by lia.
    apply list_index_Some in Hi as [Hi Hmin].
    injection Hi as <-. apply (Hmin 18%nat); [lia | done].
Qed.

(** ** Playing on the nodes *)

Lemma play_on_nodes_eq (play : Z -> string -> outcome Z) (audio_file : string)
    (nodes : list Z) (count : nat) (issued : list Z) :
  play_on_nodes play audio_file nodes count issued
  = ((count + length (List.filter (played_ok play audio_file) nodes))%nat,
     (issued ++ nodes)%list).
Proof.
  revert count issued. induction nodes as [|node rest IH]; intros count issued; simpl.
  - by rewrite Nat.add_0_r, app_nil_r.
  - rewrite IH, <- app_assoc. simpl. unfold played_ok at 2.
    destruct (play node audio_file) as [rc|e]; [destruct (Z.eqb rc 0)|];
      simpl; f_equal; lia.
Qed.

Lemma filter_all_length {A} (f : A -> bool) (l : list A) :
  length (List.filter f l) = length l <-> forall x, x ∈ l -> f x = true.
Proof.
  induction l as [|x l IH]; simpl.
  - split; [intros _ x Hx; by apply elem_of_nil in Hx | done].
  - pose proof (filter_length_le f l) as Hle.
    destruct (f x) eqn:Hx; simpl.
    + split.
      * intros Hl y [->|Hy]%elem_of_cons; [done|]. apply IH; [lia | done].
      * intros Hall. f_equal. apply IH. intros y Hy. apply Hall. by right.
    + split; [lia|]. intros Hall. specialize (Hall x ltac:(left)). congruence.
Qed.

(** X21. [send_to_nodes] fails at once, issuing no command, when there is
    no node; otherwise it issues the play command for every node in
    order, going on after a node that fails, and reports success exactly
    when every command returned code 0. *)
Theorem send_to_nodes_spec (play : Z -> string -> outcome Z) (config_nodes : list Z)
    (audio_file : string) (nodes : option (list Z)) :
  let targets := default config_nodes nodes in
  snd (send_to_nodes play config_nodes audio_file nodes) = targets
  /\ (fst (send_to_nodes play config_nodes audio_file nodes) = true <->
      targets <> [] /\ forall node, node ∈ targets -> play node audio_file = Returned 0).
Proof.
  unfold send_to_nodes. cbv zeta.
  generalize (default config_nodes nodes). intros targets.
  destruct targets as [|node rest].
  { simpl. split; [done|]. split; [done | intros [? _]; done]. }
  cbv beta iota delta [is_empty]. rewrite play_on_nodes_eq.
  cbn [fst snd app Nat.add]. split; [done|].
  rewrite Nat.eqb_eq, filter_all_length. split.
  - intros Hall. split; [done|]. intros n Hn. specialize (Hall n Hn).
    unfold played_ok in Hall. destruct (play n audio_file) as [rc|e]; [|done].
    apply Z.eqb_eq in Hall. by subst.
  - intros [_ Hall] n Hn. unfold played_ok. by rewrite (Hall n Hn).
Qed.

(** ** Notifications *)




Example alert_message_example :
  alert_message "Tornado Warning" ["A"; "B"] = "Weather Alert: Tornado Warning for A, B"
  /\ alert_message "Tornado Warning" [] = "Weather Alert: Tornado Warning".
Proof. split; reflexivity. Qed.

(** ** Looking an alert up *)

Lemma find_by_title_sound (search_term : string) (items : list (string * pyval))
    (found : FoundAlert) :
  find_by_title search_term items = Some found ->
  (found_type found, found_data found) ∈ items
  /\ found_index found = None
  /\ occurs_in (lower search_term) (lower (found_type found)).
Proof.
  induction items as [|[t d] items IH]; simpl; [done|].
  destruct (str_contains (lower search_term) (lower t)) eqn:Hc.
  - intros [= <-]. simpl. split; [left|]. split; [done|]. by apply str_contains_spec.
  - intros H. destruct (IH H) as (Hin & Hi & Ho). split; [by right | done].
Qed.

Lemma find_by_title_None (search_term : string) (items : list (string * pyval)) :
  find_by_title search_term items = None <->
  forall t d, (t, d) ∈ items -> ~ occurs_in (lower search_term) (lower t).
Proof.
  induction items as [|[t d] items IH]; simpl.
  - split; [intros _ t d Hin; by apply elem_of_nil in Hin | done].
  - destruct (str_contains (lower search_term) (lower t)) eqn:Hc.
    + split; [done|]. intros H. exfalso. apply (H t d); [left|].
      by apply str_contains_spec.
    + rewrite IH. split.
      * intros H t' d' [[= -> ->]|Hin]%elem_of_cons; [by apply str_contains_false|].
        by apply (H t' d').
      * intros H t' d' Hin. apply (H t' d'). by right.
Qed.

Lemma str_contains_empty (s : string) : str_contains "" s = true.
Proof. by destruct s. Qed.

Lemma in_range_spec (i n : Z) :
  (Z.leb 0 i && Z.ltb i n)%bool = true <-> 0 <= i < n.
Proof. rewrite andb_true_iff, Z.leb_le, Z.ltb_lt. done. Qed.

Lemma py_int_spec (s : string) :
  ((String.length s <= INT_MAX_STR_DIGITS)%nat /\ py_int s = Returned (int_of_digits s))
  \/ ((INT_MAX_STR_DIGITS < String.length s)%nat /\ py_int s = Raised ValueError).
Proof.
  unfold py_int. destruct (Nat.ltb_spec INT_MAX_STR_DIGITS (String.length s)); eauto.
Qed.

(** X23. On ASCII strings, [find_alert_by_index_or_title] only returns
    alerts of [last_alerts].  A search term made of at most 4300 digits
    that is a position of the list, counted from 0, returns the alert at
    that position; a term of more than 4300 digits returns nothing
    ([int] raises); any other term returns the first alert whose type
    contains it, letter case aside, so the empty term returns the first
    alert, and nothing when no type contains it. *)
Theorem find_alert_by_index_or_title_spec (state : list (string * pyval))
    (items : list (string * pyval)) (search_term : string) :
  is_ascii_string search_term ->
  Forall (fun kv => is_ascii_string (fst kv)) items ->
  dict_get "last_alerts" state = Some (VDict items) ->
  (forall found,
     find_alert_by_index_or_title state search_term = Some found ->
     (found_type found, found_data found) ∈ items)
  /\ (isdigit search_term = true ->
      (String.length search_term <= INT_MAX_STR_DIGITS)%nat ->
      0 <= int_of_digits search_term < Z.of_nat (length items) ->
      exists alert_type alert_data,
        items !! Z.to_nat (int_of_digits search_term) = Some (alert_type, alert_data)
        /\ find_alert_by_index_or_title state search_term
           = Some {| found_type := alert_type; found_data := alert_data;
                     found_index := Some (int_of_digits search_term) |})
  /\ (isdigit search_term = true ->
      (INT_MAX_STR_DIGITS < String.length search_term)%nat ->
      find_alert_by_index_or_title state search_term = None)
  /\ (isdigit search_term = false
      \/ ((String.length search_term <= INT_MAX_STR_DIGITS)%nat
          /\ ~ (0 <= int_of_digits search_term < Z.of_nat (length items))) ->
      find_alert_by_index_or_title state search_term = find_by_title search_term items)
  /\ (forall alert_type alert_data rest,
        items = (alert_type, alert_data) :: rest ->
        find_alert_by_index_or_title state ""
        = Some {| found_type := alert_type; found_data := alert_data;
                  found_index := None |})
  /\ (find_alert_by_index_or_title state search_term = None <->
      (isdigit search_term = true
       /\ (INT_MAX_STR_DIGITS < String.length search_term)%nat)
      \/ ((isdigit search_term = false
           \/ ~ (0 <= int_of_digits search_term < Z.of_nat (length items)))
          /\ forall t d, (t, d) ∈ items -> ~ occurs_in (lower search_term) (lower t))).
Proof.
  intros _ _ Hstate. unfold find_alert_by_index_or_title. rewrite Hstate.
  cbv beta iota delta [default from_option id].
  assert (Hidx : 0 <= int_of_digits search_term < Z.of_nat (length items) ->
            exists alert_type alert_data,
              items !! Z.to_nat (int_of_digits search_term)
              = Some (alert_type, alert_data)).
  { intros Hr.
    destruct (lookup_lt_is_Some_2 items (Z.to_nat (int_of_digits search_term)))
      as [[t d] Hl]; [lia | eauto]. }
  split; [|split; [|split; [|split; [|split]]]].
  - intros found. destruct (isdigit search_term) eqn:Hd.
    + destruct (py_int_spec search_term) as [[_ ->]|[_ ->]]; [|done]. cbn [obind].
      destruct (Z.leb 0 _ && Z.ltb _ _)%bool eqn:Hr.
      * apply in_range_spec in Hr. destruct (Hidx Hr) as (t & d & Hl). rewrite Hl.
        intros [= <-]. simpl. by eapply list_elem_of_lookup_2.
      * intros H. by apply find_by_title_sound in H as [? _].
    + intros H. by apply find_by_title_sound in H as [? _].
  - intros Hd Hlen Hr. destruct (Hidx Hr) as (t & d & Hl). exists t, d.
    split; [done|]. rewrite Hd.
    destruct (py_int_spec search_term) as [[_ ->]|[? _]]; [|lia]. cbn [obind].
    apply in_range_spec in Hr. by rewrite Hr, Hl.
  - intros Hd Hlen. rewrite Hd.
    by destruct (py_int_spec search_term) as [[? _]|[_ ->]]; [lia|].
  - intros [Hd|[Hlen Hr]]; [by rewrite Hd|].
    destruct (isdigit search_term); [|done].
    destruct (py_int_spec search_term) as [[_ ->]|[? _]]; [|lia]. cbn [obind].
    destruct (Z.leb 0 _ && Z.ltb _ _)%bool eqn:Hr'; [|done].
    apply in_range_spec in Hr'. done.
  - intros t d rest ->. simpl. by rewrite str_contains_empty.
  - destruct (isdigit search_term) eqn:Hd.
    + destruct (py_int_spec search_term) as [[Hlen ->]|[Hlen ->]]; cbn [obind].
      2:{ split; [by left | done]. }
      destruct (Z.leb 0 _ && Z.ltb _ _)%bool eqn:Hr.
      * apply in_range_spec in Hr. destruct (Hidx Hr) as (t & d & Hl). rewrite Hl.
        split; [done|]. intros [[_ ?]|[[?|?] _]]; [lia | done | done].
      * rewrite find_by_title_None. split.
        -- intros H. right. split; [|done]. right. intros Hr'.
           apply in_range_spec in Hr'. congruence.
        -- intros [[_ ?]|[_ ?]]; [lia | done].
    + rewrite find_by_title_None. split.
      * intros H. right. split; [by left | done].
      * intros [[? _]|[_ ?]]; done.
Qed.

Lemma find_alert_by_index_or_title_spec_witness :
  exists alert_type alert_data,
    [("Flood Watch", VList [stored_record "A"]);
     ("Tornado Warning", VList [stored_record "A"])] !! Z.to_nat (int_of_digits "1")
    = Some (alert_type, alert_data)
    /\ find_alert_by_index_or_title
         [("last_alerts", VDict [("Flood Watch", VList [stored_record "A"]);
                                 ("Tornado Warning", VList [stored_record "A"])])] "1"
       = Some {| found_type := alert_type; found_data := alert_data;
                 found_index := Some (int_of_digits "1") |}.
Proof.
  assert (Hascii : forall s, forallb (fun c => Nat.ltb (Ascii.nat_of_ascii c) 128)
                               (list_ascii_of_string s) = true -> is_ascii_string s).
  { intros s Hs. apply Forall_forall. intros c Hc.
    rewrite forallb_forall in Hs. apply Nat.ltb_lt, Hs. by apply list_elem_of_In. }
  destruct (find_alert_by_index_or_title_spec
              [("last_alerts", VDict [("Flood Watch", VList [stored_record "A"]);
                                      ("Tornado Warning", VList [stored_record "A"])])]
              [("Flood Watch", VList [stored_record "A"]);
               ("Tornado Warning", VList [stored_record "A"])] "1")
    as (_ & Hidx & _).
  - apply Hascii. reflexivity.
  - repeat constructor; apply Hascii; reflexivity.
  - reflexivity.
  - apply Hidx; [reflexivity | | vm_compute; split; [discriminate | reflexivity]].
    apply Nat.leb_le. vm_compute. reflexivity.
Defined.

(** ** The handlers, further *)

Lemma notify_alerts_calls (c : Collaborators) (alerts : list (string * list AlertData))
    (s : Sys) :
  (forall t counties sev,
     is_returned (notification_service_send_alert_notification c t counties sev) = true) ->
  Forall (fun kv => snd kv <> []) alerts ->
  calls (snd (notify_alerts c alerts s)) = (calls s ++ map notification_of alerts)%list.
Proof.
  intros Hret Hall. revert s. induction Hall as [|[t l] alerts Hl Ha IH]; intros s; simpl.
  - by rewrite app_nil_r.
  - destruct (max_severity_spec l Hl) as [-> _].
    specialize (Hret t (map county_code l) (max_severity l)).
    destruct (notification_service_send_alert_notification c t _ _) as [b|e]; [|done].
    rewrite IH. simpl. by rewrite <- app_assoc.
Qed.

(** X24. With collaborators that return, [_handle_active_alerts] sends
    one notification per alert type of the snapshot, in snapshot order,
    with the counties of its records and its maximum severity, on every
    call: the notifications do not depend on whether the alert is
    announced. *)
Theorem notifications_every_cycle (c : Collaborators) (cfg : AppConfig)
    (alerts : list (string * list AlertData)) (changes : Changes) (s : Sys) :
  returning c ->
  Forall (fun kv => snd kv <> []) alerts ->
  exists new,
    calls (_handle_active_alerts c cfg alerts changes s) = (calls s ++ new)%list
    /\ List.filter is_alert_notification new = map notification_of alerts.
Proof.
  intros [Hsay Hnot] Hne. unfold _handle_active_alerts, active_alerts_body.
  assert (Hf : List.filter is_alert_notification (map notification_of alerts)
               = map notification_of alerts).
  { clear. induction alerts as [|kv alerts IH]; simpl; [done|]. by rewrite IH. }
  destruct (say_alert cfg && _)%bool.
  - specialize (Hsay alerts (max_alerts cfg)).
    destruct (alert_announcer_say_alerts c alerts (max_alerts cfg)) as [b|e]; [|done].
    rewrite notify_alerts_calls by done. simpl. rewrite <- app_assoc.
    eexists. split; [reflexivity|]. simpl. exact Hf.
  - rewrite notify_alerts_calls by done. eexists. split; [reflexivity | exact Hf].
Qed.

Lemma notifications_every_cycle_witness :
  exists new,
    calls (_handle_active_alerts (repo_collaborators working_devices)
             (app_config two_zones) tornado_snapshot no_changes
             (fresh tornado_state Missing))
    = (calls (fresh tornado_state Missing) ++ new)%list
    /\ List.filter is_alert_notification new = map notification_of tornado_snapshot.
Proof.
  apply (notifications_every_cycle (repo_collaborators working_devices)
           (app_config two_zones) tornado_snapshot no_changes
           (fresh tornado_state Missing)).
  - split; intros; reflexivity.
  - repeat constructor; discriminate.
Defined.

(** X25. Whatever the collaborators do, [_handle_all_clear] changes
    nothing of the state but [last_allclear]: [last_alerts],
    [last_sayalert] and every other key keep their values, and so do the
    state manager and the state file. *)
Theorem handle_all_clear_frame (c : Collaborators) (cfg : AppConfig)
    (old_alerts : pyval) (s : Sys) (k : string) :
  k <> "last_allclear" ->
  dict_get k (state (_handle_all_clear c cfg old_alerts s)) = dict_get k (state s)
  /\ state_manager (_handle_all_clear c cfg old_alerts s) = state_manager s
  /\ data_file (_handle_all_clear c cfg old_alerts s) = data_file s.
Proof.
  intros Hk.
  destruct (handle_all_clear_spec c cfg old_alerts s)
    as (new & _ & -> & -> & _ & _ & [-> | ->]); [done|].
  split; [|done]. apply dict_get_set_ne. by apply String.eqb_neq.
Qed.

Lemma handle_all_clear_frame_witness :
  dict_get "last_sayalert"
    (state (_handle_all_clear (repo_collaborators working_devices)
              (app_config two_zones) tornado_stored (fresh tornado_state Missing)))
  = dict_get "last_sayalert" (state (fresh tornado_state Missing))
  /\ state_manager (_handle_all_clear (repo_collaborators working_devices)
                      (app_config two_zones) tornado_stored (fresh tornado_state Missing))
     = state_manager (fresh tornado_state Missing)
  /\ data_file (_handle_all_clear (repo_collaborators working_devices)
                  (app_config two_zones) tornado_stored (fresh tornado_state Missing))
     = data_file (fresh tornado_state Missing).
Proof.
  apply (handle_all_clear_frame (repo_collaborators working_devices)
           (app_config two_zones) tornado_stored (fresh tornado_state Missing)
           "last_sayalert").
  discriminate.
Defined.

(** ** When a cycle fails *)

Lemma main_outcome (env : Env) (cfg : Config) (file : file_content) :
  fst (fst (main env cfg file))
  = match load_state file with
    | Raised e => Raised e
    | Returned (st, _) =>
        if (enabled (app_config cfg) && negb (is_empty (county_configs cfg)))%bool then
          match current_snapshot env cfg with
          | Raised e => Raised e
          | Returned snapshot =>
              match detect_county_changes
                      (default (VDict []) (dict_get "last_alerts" st))
                      (snapshot_items snapshot) with
              | Raised e => Raised e
              | Returned _ => Returned tt
              end
          end
        else Returned tt
    end.
Proof.
  unfold main. destruct (load_state file) as [[st sm]|e]; [|done].
  unfold run, run_body. cbn [state].
  destruct (enabled (app_config cfg)); [|done]. cbn [negb andb].
  destruct (is_empty (county_configs cfg)); [done|]. cbn [negb].
  destruct (current_snapshot env cfg) as [S|e]; [|done].
  by destruct (detect_county_changes _ (snapshot_items S)).
Qed.

(** X26. With a positive worker limit and a state file whose
    [last_alerts] is a dictionary, a cycle raises exactly when the
    application is enabled, a zone is configured and some alert type of
    the current snapshot is already a key of the stored [last_alerts]:
    the change detector then subscripts an [AlertData] instance.  No
    zone failure and no collaborator failure makes the cycle raise. *)
Theorem cycle_raises_on_persisting_alert (env : Env) (cfg : Config)
    (file : file_content) (st d : list (string * pyval)) (sm : StateManager) :
  0 < max_workers (api_client cfg) ->
  load_state file = Returned (st, sm) ->
  dict_get "last_alerts" st = Some (VDict d) ->
  is_returned (fst (fst (main env cfg file))) = false <->
  enabled (app_config cfg) = true
  /\ county_configs cfg <> []
  /\ exists S k,
       current_snapshot env cfg = Returned S
       /\ k ∈ dict_keys S
       /\ dict_mem k d = true.
Proof.
  intros Hw Hload Hd. rewrite main_outcome, Hload, Hd.
  cbv beta iota delta [default from_option id].
  destruct (enabled (app_config cfg)); cbn [andb].
  2:{ split; [done | intros [? _]; done]. }
  destruct (county_configs cfg) as [|c0 cs] eqn:Hcc; cbn [is_empty negb].
  { split; [done | intros (_ & ? & _); done]. }
  destruct (current_snapshot_returns env cfg) as [S HS]; [by rewrite Hcc | done|].
  rewrite HS. cbv beta iota.
  pose proof (current_snapshot_nonempty_lists env cfg S HS) as Hne.
  destruct (detect_on_instances d S Hne) as [Hempty Hiff].
  destruct (detect_county_changes (VDict d) (snapshot_items S)) as [ch|e] eqn:Hdet.
  - rewrite (Hempty ch eq_refl) in Hiff. cbn. split; [done|].
    intros (_ & _ & S' & k & [= <-] & Hk & Hm).
    pose proof (proj1 Hiff eq_refl k Hk) as Hnone.
    unfold dict_mem in Hm. by rewrite Hnone in Hm.
  - cbn. split; [|done]. intros _. split; [done|]. split; [done|]. exists S.
    destruct (decide (Exists (fun k => dict_mem k d = true) (dict_keys S)))
      as [Hex|Hnex].
    + apply Exists_exists in Hex as (k & Hk & Hm). eauto.
    + exfalso. assert (Hall : forall k, k ∈ dict_keys S -> dict_get k d = None).
      { intros k Hk. destruct (dict_get k d) as [v|] eqn:Hv; [|done].
        exfalso. apply Hnex, Exists_exists. exists k. split; [done|].
        unfold dict_mem. by rewrite Hv. }
      apply Hiff in Hall. congruence.
Qed.

Lemma cycle_raises_on_persisting_alert_witness :
  is_returned (fst (fst (main tornado_env two_zones (Doc tornado_state)))) = false <->
  enabled (app_config two_zones) = true
  /\ county_configs two_zones <> []
  /\ exists S k,
       current_snapshot tornado_env two_zones = Returned S
       /\ k ∈ dict_keys S
       /\ dict_mem k [("Tornado Warning", VList [stored_record "A"])] = true.
Proof.
  apply (cycle_raises_on_persisting_alert tornado_env two_zones (Doc tornado_state)
           tornado_state [("Tornado Warning", VList [stored_record "A"])]
           {| _state_cache := tornado_state; _state_dirty := false |});
    reflexivity.
Defined.
